(** * Flick: soft takeover, tap tempo, persistent settings and the audio callback

    A shallow embedding of the control core of the Flick pedal firmware
    (reverb, tremolo, delay) and of its two parameter-capture headers.

    Conventions.
    - A C++ [float] is read as an exact rational ([Q]): comparisons and
      arithmetic are those of the source, taken without rounding.
    - A [uint32_t] is a [Z] with its wrap-around at [2^32] written out.
    - Every control has one reading per audio block, gathered in [Hw].
    - The DSP building blocks that live in other translation units
      (oscillator, filters, delay line, reverb engines) are an interface,
      [DspLib]; a small executable instance, [Bench], is given at the end
      of the definitions and serves the concrete examples.
    - The file has two parts: the definitions, then the theorems. *)

From Stdlib Require Import ZArith QArith Qabs Qround Lqa Lia List Bool.
Import ListNotations.

Set Implicit Arguments.

(** ** Numbers *)

Definition float := Q.

Definition uint32 (z : Z) : Z := (z mod 2 ^ 32)%Z.

Module Float.

Definition fge (a b : float) : bool := Qle_bool b a.          (* a >= b *)
Definition fle (a b : float) : bool := Qle_bool a b.          (* a <= b *)
Definition fgt (a b : float) : bool := negb (Qle_bool a b).   (* a > b *)
Definition flt (a b : float) : bool := negb (Qle_bool b a).   (* a < b *)
Definition feq (a b : float) : bool := Qeq_bool a b.          (* a == b *)

Definition fabs (x : float) : float := Qabs x.

(** DaisySP helpers: [fmax], [fmin], [fclamp] and the one-pole smoother. *)
Definition fmax (a b : float) : float := if fgt a b then a else b.
Definition fmin (a b : float) : float := if flt a b then a else b.
Definition fclamp (x lo hi : float) : float := fmin (fmax x lo) hi.
Definition fonepole (out target coeff : float) : float :=
  (out + coeff * (target - out))%Q.

(** [(int) x]: the conversion to an integer truncates towards zero. *)
Definition to_int (x : float) : Z := Z.quot (Qnum x) (Z.pos (Qden x)).

End Float.
Import Float.

(** ** parameter_capture.h, first listing: [Process] takes the live value *)

Module KnobCapture.

Record t := mk {
  frozen_value_ : float;       (* frozen parameter value from Capture() *)
  baseline_control_ : float;   (* raw knob position when captured *)
  is_active_ : bool;           (* true = pass-through, false = frozen *)
  threshold_ : float           (* movement threshold for activation *)
}.

(** The constructor; the default threshold is 0.05. *)
Definition init (threshold : float) : t := mk 0 0 true threshold.

(** [knob] is what [knob_.Process()] reads at the call. *)
Definition Capture (knob : float) (current_param_value : float) (k : t) : t :=
  mk current_param_value knob false (threshold_ k).

Definition Process (knob : float) (current_param_value : float) (k : t)
  : float * t :=
  let current_control := knob in
  if is_active_ k then (current_param_value, k)
  else if fge (fabs (current_control - baseline_control_ k)) (threshold_ k)
  then (current_param_value,
        mk (frozen_value_ k) (baseline_control_ k) true (threshold_ k))
  else (frozen_value_ k, k).

Definition Reset (k : t) : t :=
  mk (frozen_value_ k) (baseline_control_ k) true (threshold_ k).

Definition IsActive (k : t) : bool := is_active_ k.

(** Successive [Process] calls; each input is (raw knob, live value). *)
Fixpoint run (k : t) (xs : list (float * float)) : list float :=
  match xs with
  | [] => []
  | (c, p) :: xs' => let '(y, k') := Process c p k in y :: run k' xs'
  end.

End KnobCapture.

(** ** parameter_capture.h, second listing: parameterless [Process]

    This is the header the capture-based control file includes: [Process]
    works on raw knob readings and the frozen parameter value is read
    through [GetFrozenValue]. *)

Module KnobCaptureRaw.

Record t := mk {
  frozen_knob_ : float;    (* knob reading at Capture() *)
  frozen_value_ : float;   (* cached parameter value *)
  is_frozen_ : bool;       (* true = frozen, false = pass-through *)
  threshold_ : float
}.

Definition init (threshold : float) : t := mk 0 0 false threshold.

Definition Capture (knob : float) (value : float) (k : t) : t :=
  mk knob value true (threshold_ k).

Definition GetFrozenValue (k : t) : float := frozen_value_ k.

Definition Process (knob : float) (k : t) : float * t :=
  let current_value := knob in
  if negb (is_frozen_ k) then (current_value, k)
  else if fge (fabs (current_value - frozen_knob_ k)) (threshold_ k)
  then (current_value,
        mk (frozen_knob_ k) (frozen_value_ k) false (threshold_ k))
  else (frozen_knob_ k, k).

Definition Reset (k : t) : t :=
  mk (frozen_knob_ k) (frozen_value_ k) false (threshold_ k).

Definition IsFrozen (k : t) : bool := is_frozen_ k.

Fixpoint run (k : t) (xs : list float) : list float :=
  match xs with
  | [] => []
  | c :: xs' => let '(y, k') := Process c k in y :: run k' xs'
  end.

End KnobCaptureRaw.

(** ** The control file (tap-tempo variant): constants and enumerations *)

Definition SETTINGS_VERSION : Z := 5%Z.

Definition SAMPLE_RATE : float := 48000.
Definition MAX_DELAY : Z := 96000%Z.   (* static_cast<size_t>(SAMPLE_RATE * 2.0f) *)

Definition TREMOLO_SPEED_MIN : float := 2 # 10.
Definition TREMOLO_SPEED_MAX : float := 16.
Definition TREMOLO_DEPTH_SCALE : float := 1.
Definition TREMOLO_LED_BRIGHTNESS : float := 4 # 10.
Definition TAP_TEMPO_BLINK_DUTY_CYCLE : float := 1 # 10.

Definition DELAY_TIME_MIN_SECONDS : float := 5 # 100.
Definition DELAY_WET_MIX_ATTENUATION : float := 333 # 1000.
Definition DELAY_DRY_WET_PERCENT_MAX : float := 100.

Definition TAP_TEMPO_TIMEOUT_MS : Z := 5000%Z.
Definition TAP_TEMPO_MIN_INTERVAL_MS : Z := 20%Z.
Definition TAP_TEMPO_MAX_INTERVAL_MS : Z := 4000%Z.
Definition MS_PER_SECOND : float := 1000.
Definition TAP_TEMPO_SAMPLES_MIN : float :=
  ((inject_Z TAP_TEMPO_MIN_INTERVAL_MS / MS_PER_SECOND) * SAMPLE_RATE)%Q.
Definition TAP_TEMPO_SAMPLES_MAX : float :=
  ((inject_Z TAP_TEMPO_MAX_INTERVAL_MS / MS_PER_SECOND) * SAMPLE_RATE)%Q.

Definition KNOB_TAKEOVER_THRESHOLD : float := 5 # 100.

Definition minus_18db_gain : float := 12589254 # 100000000.
Definition minus_20db_gain : float := 1 # 10.
Definition input_amplification : float := 1.

Inductive PedalMode :=
| PEDAL_MODE_NORMAL
| PEDAL_MODE_EDIT_REVERB
| PEDAL_MODE_EDIT_MONO_STEREO
| PEDAL_MODE_TAP_TEMPO.

Inductive DelaySubdivision :=
| DELAY_SUBDIV_QUARTER_TRIPLET
| DELAY_SUBDIV_NORMAL
| DELAY_SUBDIV_DOTTED_EIGHTH.

(** The two enumerations that are persisted as [int] and cast back keep
    their integer representation, so that an out-of-range stored value is
    still a value. *)
Definition MonoStereoMode := Z.
Definition MS_MODE_MIMO : MonoStereoMode := 0%Z.
Definition MS_MODE_MISO : MonoStereoMode := 1%Z.
Definition MS_MODE_SISO : MonoStereoMode := 2%Z.

Definition TremDelMakeUpGain := Z.
Definition MAKEUP_GAIN_NONE : TremDelMakeUpGain := 0%Z.
Definition MAKEUP_GAIN_NORMAL : TremDelMakeUpGain := 1%Z.
Definition MAKEUP_GAIN_HEAVY : TremDelMakeUpGain := 2%Z.

Inductive ReverbType := REVERB_PLATE | REVERB_SPRING | REVERB_HALL.

Inductive ReverbKnobMode :=
| REVERB_KNOB_ALL_DRY
| REVERB_KNOB_DRY_WET_MIX
| REVERB_KNOB_ALL_WET.

Inductive TremoloMode := TREMOLO_SINE | TREMOLO_HARMONIC | TREMOLO_SQUARE.

Inductive Waveform := WAVE_SIN | WAVE_SQUARE_ROUNDED.

Definition PedalMode_eqb (a b : PedalMode) : bool :=
  match a, b with
  | PEDAL_MODE_NORMAL, PEDAL_MODE_NORMAL
  | PEDAL_MODE_EDIT_REVERB, PEDAL_MODE_EDIT_REVERB
  | PEDAL_MODE_EDIT_MONO_STEREO, PEDAL_MODE_EDIT_MONO_STEREO
  | PEDAL_MODE_TAP_TEMPO, PEDAL_MODE_TAP_TEMPO => true
  | _, _ => false
  end.

(** ** Hardware readings *)

Inductive Knob := KNOB_1 | KNOB_2 | KNOB_3 | KNOB_4 | KNOB_5 | KNOB_6.
Inductive Toggleswitch := TOGGLESWITCH_1 | TOGGLESWITCH_2 | TOGGLESWITCH_3.
Inductive Switches := FOOTSWITCH_1 | FOOTSWITCH_2.

(** Positions index the switch maps: 0 is up/right, 1 middle, 2 down/left. *)
Inductive ToggleswitchPosition :=
| TOGGLESWITCH_UP
| TOGGLESWITCH_MIDDLE
| TOGGLESWITCH_DOWN.

Definition Position_eqb (a b : ToggleswitchPosition) : bool :=
  match a, b with
  | TOGGLESWITCH_UP, TOGGLESWITCH_UP
  | TOGGLESWITCH_MIDDLE, TOGGLESWITCH_MIDDLE
  | TOGGLESWITCH_DOWN, TOGGLESWITCH_DOWN => true
  | _, _ => false
  end.

Record Hw := mkHw {
  knob_Value : Knob -> float;        (* hw.knobs[k].Value(), within 0..1 *)
  GetToggleswitchPosition : Toggleswitch -> ToggleswitchPosition;
  GetNow : Z;                        (* System::GetNow(), milliseconds *)
  DIP_SWITCH_1 : bool;
  DIP_SWITCH_2 : bool;
  AudioCallbackRate : float;
  PLATFORM_funbox : bool             (* the build's platform switch *)
}.

Definition kReverbKnobMap (p : ToggleswitchPosition) : ReverbKnobMode :=
  match p with
  | TOGGLESWITCH_UP => REVERB_KNOB_ALL_WET
  | TOGGLESWITCH_MIDDLE => REVERB_KNOB_DRY_WET_MIX
  | TOGGLESWITCH_DOWN => REVERB_KNOB_ALL_DRY
  end.

Definition kMakeupGainMap (p : ToggleswitchPosition) : TremDelMakeUpGain :=
  match p with
  | TOGGLESWITCH_UP => MAKEUP_GAIN_HEAVY
  | TOGGLESWITCH_MIDDLE => MAKEUP_GAIN_NORMAL
  | TOGGLESWITCH_DOWN => MAKEUP_GAIN_NONE
  end.

Definition kTremoloModeMap (p : ToggleswitchPosition) : TremoloMode :=
  match p with
  | TOGGLESWITCH_UP => TREMOLO_SQUARE
  | TOGGLESWITCH_MIDDLE => TREMOLO_HARMONIC
  | TOGGLESWITCH_DOWN => TREMOLO_SINE
  end.

Definition kDelaySubdivisionMap (p : ToggleswitchPosition) : DelaySubdivision :=
  match p with
  | TOGGLESWITCH_UP => DELAY_SUBDIV_DOTTED_EIGHTH
  | TOGGLESWITCH_MIDDLE => DELAY_SUBDIV_NORMAL
  | TOGGLESWITCH_DOWN => DELAY_SUBDIV_QUARTER_TRIPLET
  end.

Definition kMonoStereoModeMap (p : ToggleswitchPosition) : MonoStereoMode :=
  match p with
  | TOGGLESWITCH_UP => MS_MODE_SISO
  | TOGGLESWITCH_MIDDLE => MS_MODE_MISO
  | TOGGLESWITCH_DOWN => MS_MODE_MIMO
  end.

Definition tank_mod_values (p : ToggleswitchPosition) : float :=
  match p with
  | TOGGLESWITCH_UP => 5 # 10
  | TOGGLESWITCH_MIDDLE => 25 # 100
  | TOGGLESWITCH_DOWN => 1 # 10
  end.

(** ** Persistent settings *)

Record Settings := mkSettings {
  version : Z;
  decay : float;
  diffusion : float;
  input_cutoff_freq : float;
  tank_cutoff_freq : float;
  tank_mod_speed : float;
  tank_mod_depth : float;
  tank_mod_shape : float;
  pre_delay : float;
  mono_stereo_mode_ : Z;      (* Settings::mono_stereo_mode *)
  makeup_gain_mode : Z;
  bypass_reverb : bool;
  bypass_delay_ : bool;       (* Settings::bypass_delay *)
  bypass_tremolo : bool
}.

(** [Settings::operator!=]. *)
Definition Settings_ne (me a : Settings) : bool :=
  negb ((version a =? version me)%Z &&
        feq (decay a) (decay me) &&
        feq (diffusion a) (diffusion me) &&
        feq (input_cutoff_freq a) (input_cutoff_freq me) &&
        feq (tank_cutoff_freq a) (tank_cutoff_freq me) &&
        feq (tank_mod_speed a) (tank_mod_speed me) &&
        feq (tank_mod_depth a) (tank_mod_depth me) &&
        feq (tank_mod_shape a) (tank_mod_shape me) &&
        feq (pre_delay a) (pre_delay me) &&
        (mono_stereo_mode_ a =? mono_stereo_mode_ me)%Z &&
        (makeup_gain_mode a =? makeup_gain_mode me)%Z &&
        Bool.eqb (bypass_reverb a) (bypass_reverb me) &&
        Bool.eqb (bypass_delay_ a) (bypass_delay_ me) &&
        Bool.eqb (bypass_tremolo a) (bypass_tremolo me)).

(** libDaisy's [PersistentStorage<Settings>] as the control file uses it:
    an in-memory record, the defaults given to [Init], and the image kept
    in flash.  A store writes the current state and record to the image. *)

Inductive StorageState := STATE_UNKNOWN | STATE_FACTORY | STATE_USER.

Record PersistentStorage := mkStorage {
  settings_ : Settings;
  default_settings_ : Settings;
  state_ : StorageState;
  qspi : StorageState * Settings
}.

Definition StoreSettings (p : PersistentStorage) : PersistentStorage :=
  mkStorage (settings_ p) (default_settings_ p) (state_ p)
            (state_ p, settings_ p).

Definition Storage_Init (defaults : Settings) (p : PersistentStorage)
  : PersistentStorage :=
  match fst (qspi p) with
  | STATE_UNKNOWN =>
      StoreSettings (mkStorage defaults defaults STATE_FACTORY (qspi p))
  | cur_state => mkStorage (snd (qspi p)) defaults cur_state (qspi p)
  end.

Definition GetSettings (p : PersistentStorage) : Settings := settings_ p.

(** Writing through the reference that [GetSettings] returns. *)
Definition PutSettings (r : Settings) (p : PersistentStorage)
  : PersistentStorage :=
  mkStorage r (default_settings_ p) (state_ p) (qspi p).

Definition Save (p : PersistentStorage) : PersistentStorage :=
  StoreSettings
    (mkStorage (settings_ p) (default_settings_ p) STATE_USER (qspi p)).

Definition RestoreDefaults (p : PersistentStorage) : PersistentStorage :=
  StoreSettings
    (mkStorage (default_settings_ p) (default_settings_ p) STATE_FACTORY
               (qspi p)).

(** ** Soft takeover helpers of the control file *)

Record KnobTakeover := mkKnobTakeover {
  knob : option Knob;     (* the analog control, [None] for nullptr *)
  entry_value : float;    (* knob position when control was suspended *)
  taken_over : bool       (* whether the knob has moved enough *)
}.

Definition KnobTakeover_new : KnobTakeover := mkKnobTakeover None 0 false.

Definition KnobTakeover_init (knobRef : Knob) (k : KnobTakeover) : KnobTakeover :=
  mkKnobTakeover (Some knobRef) (entry_value k) (taken_over k).

Definition KnobTakeover_capture (hw : Hw) (k : KnobTakeover) : KnobTakeover :=
  match knob k with
  | Some kn => mkKnobTakeover (knob k) (knob_Value hw kn) false
  | None => k
  end.

Definition checkTakeover_with (threshold : float) (hw : Hw) (k : KnobTakeover)
  : bool * KnobTakeover :=
  match knob k with
  | None => (false, k)
  | Some kn =>
      let currentValue := knob_Value hw kn in
      if negb (taken_over k) then
        if fgt (fabs (currentValue - entry_value k)) threshold
        then (true, mkKnobTakeover (knob k) (entry_value k) true)
        else (false, k)
      else (true, k)
  end.

(** The call sites all use the default threshold. *)
Definition checkTakeover : Hw -> KnobTakeover -> bool * KnobTakeover :=
  checkTakeover_with KNOB_TAKEOVER_THRESHOLD.

Record SwitchChangeDetector := mkSwitchChangeDetector {
  hw_ptr : bool;                          (* false for nullptr *)
  switch_index : Toggleswitch;
  entry_position : ToggleswitchPosition;
  changed : bool
}.

Definition SwitchChangeDetector_new : SwitchChangeDetector :=
  mkSwitchChangeDetector false TOGGLESWITCH_1 TOGGLESWITCH_UP false.

Definition SwitchChangeDetector_init (switchIdx : Toggleswitch)
  (d : SwitchChangeDetector) : SwitchChangeDetector :=
  mkSwitchChangeDetector true switchIdx (entry_position d) (changed d).

Definition SwitchChangeDetector_capture (hw : Hw) (d : SwitchChangeDetector)
  : SwitchChangeDetector :=
  if hw_ptr d then
    mkSwitchChangeDetector (hw_ptr d) (switch_index d)
      (GetToggleswitchPosition hw (switch_index d)) false
  else d.

Definition checkChange (hw : Hw) (d : SwitchChangeDetector)
  : bool * SwitchChangeDetector :=
  if negb (hw_ptr d) then (false, d)
  else
    let currentPosition := GetToggleswitchPosition hw (switch_index d) in
    if negb (changed d) && negb (Position_eqb currentPosition (entry_position d))
    then (true, mkSwitchChangeDetector (hw_ptr d) (switch_index d)
                  (entry_position d) true)
    else (changed d, d).

(** Successive [checkTakeover] calls, one set of readings per call. *)
Fixpoint run_checkTakeover (threshold : float) (k : KnobTakeover)
  (hws : list Hw) : list bool :=
  match hws with
  | [] => []
  | hw :: hws' =>
      let '(b, k') := checkTakeover_with threshold hw k in
      b :: run_checkTakeover threshold k' hws'
  end.

(** ** The DSP building blocks the control file links against *)

Class DspLib := {
  FlickOscillator : Type;
  osc_SetFreq : float -> FlickOscillator -> FlickOscillator;
  osc_SetAmp : float -> FlickOscillator -> FlickOscillator;
  osc_SetWaveform : Waveform -> FlickOscillator -> FlickOscillator;
  osc_Process : FlickOscillator -> float * FlickOscillator;

  PeakingEQ : Type;
  PeakingEQ_Process : PeakingEQ -> float -> float * PeakingEQ;
  LowPassFilter : Type;
  LowPassFilter_Process : LowPassFilter -> float -> float * LowPassFilter;
  HighPassFilter : Type;
  HighPassFilter_Process : HighPassFilter -> float -> float * HighPassFilter;
  LowShelf : Type;
  LowShelf_Process : LowShelf -> float -> float * LowShelf;

  DelayLine : Type;
  DelayLine_SetDelay : float -> DelayLine -> DelayLine;
  DelayLine_Read : DelayLine -> float;
  DelayLine_Write : float -> DelayLine -> DelayLine;

  Dattorro : Type;
  setDecay : float -> Dattorro -> Dattorro;
  setTankDiffusion : float -> Dattorro -> Dattorro;
  setInputFilterHighCutoffPitch : float -> Dattorro -> Dattorro;
  setTankFilterHighCutFrequency : float -> Dattorro -> Dattorro;
  setTankModSpeed : float -> Dattorro -> Dattorro;
  setTankModDepth : float -> Dattorro -> Dattorro;
  setTankModShape : float -> Dattorro -> Dattorro;
  setPreDelay : float -> Dattorro -> Dattorro;
  Dattorro_clear : Dattorro -> Dattorro;
  Dattorro_process : float -> float -> Dattorro -> Dattorro;
  getLeftOutput : Dattorro -> float;
  getRightOutput : Dattorro -> float;
  clearPopCancelValue : Dattorro -> float;

  HallReverb : Type;
  HallReverb_ProcessSample :
    float -> float -> HallReverb -> (float * float) * HallReverb;
  SpringReverb : Type;
  SpringReverb_ProcessSample :
    float -> float -> SpringReverb -> (float * float) * SpringReverb;

  (** [daisy::Parameter::Process] on a logarithmic curve: min, max, knob. *)
  Parameter_LOGARITHMIC : float -> float -> float -> float
}.

(** [daisy::Parameter::Process] on a linear curve. *)
Definition Parameter_LINEAR (pmin pmax x : float) : float :=
  (x * (pmax - pmin) + pmin)%Q.

Section ControlFile.

Context {L : DspLib}.

Record Delay := mkDelay {
  del : DelayLine;
  current_delay : float;
  delay_target : float;
  feedback : float
}.

Definition Delay_Process (input : float) (d : Delay) : float * Delay :=
  let current_delay' := fonepole (current_delay d) (delay_target d) (2 # 10000) in
  let line := DelayLine_SetDelay current_delay' (del d) in
  let read := DelayLine_Read line in
  let line := DelayLine_Write (feedback d * read + input) line in
  (read, mkDelay line current_delay' (delay_target d) (feedback d)).

(** ** The globals of the control file *)

Record Pedal := mkPedal {
  SavedSettings : PersistentStorage;
  osc : FlickOscillator;
  dc_offset : float;
  verb : Dattorro;
  hall_reverb : HallReverb;
  spring_reverb : SpringReverb;
  current_reverb_type : ReverbType;
  pedal_mode : PedalMode;
  mono_stereo_mode : MonoStereoMode;
  delayL : Delay;
  delayR : Delay;
  delay_drywet : Z;
  led_left : float;
  led_right : float;
  bypass_verb : bool;
  bypass_trem : bool;
  bypass_delay : bool;
  tap_tempo_active : bool;
  tap_tempo_last_tap_time : Z;
  tap_tempo_interval_ms : Z;
  tap_tempo_delay_samples : float;
  tap_tempo_controls_delay : bool;
  tap_tempo_tremolo_freq_hz : float;
  tap_tempo_controls_tremolo : bool;
  tap_tempo_delay_knob_takeover : KnobTakeover;
  tap_tempo_tremolo_knob_takeover : KnobTakeover;
  reverb_edit_wet_amount_knob : KnobTakeover;
  reverb_edit_pre_delay_knob : KnobTakeover;
  reverb_edit_decay_knob : KnobTakeover;
  reverb_edit_diffusion_knob : KnobTakeover;
  reverb_edit_input_cut_knob : KnobTakeover;
  reverb_edit_tank_cut_knob : KnobTakeover;
  reverb_edit_mod_speed_switch : SwitchChangeDetector;
  reverb_edit_mod_depth_switch : SwitchChangeDetector;
  reverb_edit_mod_shape_switch : SwitchChangeDetector;
  master_delay_time_samples : float;
  current_makeup_gain : TremDelMakeUpGain;
  harmonic_trem_lpf_L : LowPassFilter;
  harmonic_trem_lpf_R : LowPassFilter;
  harmonic_trem_hpf_L : HighPassFilter;
  harmonic_trem_hpf_R : HighPassFilter;
  harmonic_trem_eq_hpf1_L : HighPassFilter;
  harmonic_trem_eq_hpf1_R : HighPassFilter;
  harmonic_trem_eq_lpf1_L : LowPassFilter;
  harmonic_trem_eq_lpf1_R : LowPassFilter;
  harmonic_trem_eq_peak1_L : PeakingEQ;
  harmonic_trem_eq_peak1_R : PeakingEQ;
  harmonic_trem_eq_peak2_L : PeakingEQ;
  harmonic_trem_eq_peak2_R : PeakingEQ;
  harmonic_trem_eq_low_shelf_L : LowShelf;
  harmonic_trem_eq_low_shelf_R : LowShelf;
  notch1_L : PeakingEQ;
  notch1_R : PeakingEQ;
  notch2_L : PeakingEQ;
  notch2_R : PeakingEQ;
  plate_pre_delay : float;
  plate_dry : float;
  plate_wet : float;
  plate_decay : float;
  plate_tank_diffusion : float;
  plate_input_damp_high : float;
  plate_tank_damp_high : float;
  plate_tank_mod_speed : float;
  plate_tank_mod_depth : float;
  plate_tank_mod_shape : float;
  left_input : float;
  right_input : float;
  left_output : float;
  right_output : float;
  reverb_dry_scale_factor : float;
  reverb_reverse_scale_factor : float;
  trigger_settings_save : bool;
  (* the function-local statics of AudioCallback *)
  trem_val : float;
  depth : float;
  edit_count : Z;
  edit_led_state : bool;
  mono_stereo_edit_count : Z;
  mono_stereo_led_state : bool;
  led_count : Z
}.

(** Assignment to one global.  [Pedal_eta] rebuilds the record from its
    projections; a setter is that term with one projection replaced. *)
Definition Pedal_eta (s : Pedal) : Pedal :=
  mkPedal (SavedSettings s) (osc s) (dc_offset s) (verb s) (hall_reverb s)
    (spring_reverb s) (current_reverb_type s) (pedal_mode s)
    (mono_stereo_mode s) (delayL s) (delayR s) (delay_drywet s) (led_left s)
    (led_right s) (bypass_verb s) (bypass_trem s) (bypass_delay s)
    (tap_tempo_active s) (tap_tempo_last_tap_time s) (tap_tempo_interval_ms s)
    (tap_tempo_delay_samples s) (tap_tempo_controls_delay s)
    (tap_tempo_tremolo_freq_hz s) (tap_tempo_controls_tremolo s)
    (tap_tempo_delay_knob_takeover s) (tap_tempo_tremolo_knob_takeover s)
    (reverb_edit_wet_amount_knob s) (reverb_edit_pre_delay_knob s)
    (reverb_edit_decay_knob s) (reverb_edit_diffusion_knob s)
    (reverb_edit_input_cut_knob s) (reverb_edit_tank_cut_knob s)
    (reverb_edit_mod_speed_switch s) (reverb_edit_mod_depth_switch s)
    (reverb_edit_mod_shape_switch s) (master_delay_time_samples s)
    (current_makeup_gain s) (harmonic_trem_lpf_L s) (harmonic_trem_lpf_R s)
    (harmonic_trem_hpf_L s) (harmonic_trem_hpf_R s)
    (harmonic_trem_eq_hpf1_L s) (harmonic_trem_eq_hpf1_R s)
    (harmonic_trem_eq_lpf1_L s) (harmonic_trem_eq_lpf1_R s)
    (harmonic_trem_eq_peak1_L s) (harmonic_trem_eq_peak1_R s)
    (harmonic_trem_eq_peak2_L s) (harmonic_trem_eq_peak2_R s)
    (harmonic_trem_eq_low_shelf_L s) (harmonic_trem_eq_low_shelf_R s)
    (notch1_L s) (notch1_R s) (notch2_L s) (notch2_R s) (plate_pre_delay s)
    (plate_dry s) (plate_wet s) (plate_decay s) (plate_tank_diffusion s)
    (plate_input_damp_high s) (plate_tank_damp_high s)
    (plate_tank_mod_speed s) (plate_tank_mod_depth s)
    (plate_tank_mod_shape s) (left_input s) (right_input s) (left_output s)
    (right_output s) (reverb_dry_scale_factor s)
    (reverb_reverse_scale_factor s) (trigger_settings_save s) (trem_val s)
    (depth s) (edit_count s) (edit_led_state s) (mono_stereo_edit_count s)
    (mono_stereo_led_state s) (led_count s).

Ltac assign proj s v :=
  let e := eval cbv beta delta [Pedal_eta] in (Pedal_eta s) in
  match eval pattern (proj s) in e with
  | ?f _ => let r := eval cbv beta in (f v) in exact r
  end.

Definition set_SavedSettings (v : PersistentStorage) (s : Pedal) : Pedal :=
  ltac:(assign SavedSettings s v).
Definition set_osc (v : FlickOscillator) (s : Pedal) : Pedal :=
  ltac:(assign osc s v).
Definition set_dc_offset (v : float) (s : Pedal) : Pedal :=
  ltac:(assign dc_offset s v).
Definition set_verb (v : Dattorro) (s : Pedal) : Pedal :=
  ltac:(assign verb s v).
Definition set_hall_reverb (v : HallReverb) (s : Pedal) : Pedal :=
  ltac:(assign hall_reverb s v).
Definition set_spring_reverb (v : SpringReverb) (s : Pedal) : Pedal :=
  ltac:(assign spring_reverb s v).
Definition set_current_reverb_type (v : ReverbType) (s : Pedal) : Pedal :=
  ltac:(assign current_reverb_type s v).
Definition set_pedal_mode (v : PedalMode) (s : Pedal) : Pedal :=
  ltac:(assign pedal_mode s v).
Definition set_mono_stereo_mode (v : MonoStereoMode) (s : Pedal) : Pedal :=
  ltac:(assign mono_stereo_mode s v).
Definition set_delayL (v : Delay) (s : Pedal) : Pedal :=
  ltac:(assign delayL s v).
Definition set_delayR (v : Delay) (s : Pedal) : Pedal :=
  ltac:(assign delayR s v).
Definition set_delay_drywet (v : Z) (s : Pedal) : Pedal :=
  ltac:(assign delay_drywet s v).
Definition set_led_left (v : float) (s : Pedal) : Pedal :=
  ltac:(assign led_left s v).
Definition set_led_right (v : float) (s : Pedal) : Pedal :=
  ltac:(assign led_right s v).
Definition set_bypass_verb (v : bool) (s : Pedal) : Pedal :=
  ltac:(assign bypass_verb s v).
Definition set_bypass_trem (v : bool) (s : Pedal) : Pedal :=
  ltac:(assign bypass_trem s v).
Definition set_bypass_delay (v : bool) (s : Pedal) : Pedal :=
  ltac:(assign bypass_delay s v).
Definition set_tap_tempo_active (v : bool) (s : Pedal) : Pedal :=
  ltac:(assign tap_tempo_active s v).
Definition set_tap_tempo_last_tap_time (v : Z) (s : Pedal) : Pedal :=
  ltac:(assign tap_tempo_last_tap_time s v).
Definition set_tap_tempo_interval_ms (v : Z) (s : Pedal) : Pedal :=
  ltac:(assign tap_tempo_interval_ms s v).
Definition set_tap_tempo_delay_samples (v : float) (s : Pedal) : Pedal :=
  ltac:(assign tap_tempo_delay_samples s v).
Definition set_tap_tempo_controls_delay (v : bool) (s : Pedal) : Pedal :=
  ltac:(assign tap_tempo_controls_delay s v).
Definition set_tap_tempo_tremolo_freq_hz (v : float) (s : Pedal) : Pedal :=
  ltac:(assign tap_tempo_tremolo_freq_hz s v).
Definition set_tap_tempo_controls_tremolo (v : bool) (s : Pedal) : Pedal :=
  ltac:(assign tap_tempo_controls_tremolo s v).
Definition set_tap_tempo_delay_knob_takeover (v : KnobTakeover) (s : Pedal) : Pedal :=
  ltac:(assign tap_tempo_delay_knob_takeover s v).
Definition set_tap_tempo_tremolo_knob_takeover (v : KnobTakeover) (s : Pedal) : Pedal :=
  ltac:(assign tap_tempo_tremolo_knob_takeover s v).
Definition set_reverb_edit_wet_amount_knob (v : KnobTakeover) (s : Pedal) : Pedal :=
  ltac:(assign reverb_edit_wet_amount_knob s v).
Definition set_reverb_edit_pre_delay_knob (v : KnobTakeover) (s : Pedal) : Pedal :=
  ltac:(assign reverb_edit_pre_delay_knob s v).
Definition set_reverb_edit_decay_knob (v : KnobTakeover) (s : Pedal) : Pedal :=
  ltac:(assign reverb_edit_decay_knob s v).
Definition set_reverb_edit_diffusion_knob (v : KnobTakeover) (s : Pedal) : Pedal :=
  ltac:(assign reverb_edit_diffusion_knob s v).
Definition set_reverb_edit_input_cut_knob (v : KnobTakeover) (s : Pedal) : Pedal :=
  ltac:(assign reverb_edit_input_cut_knob s v).
Definition set_reverb_edit_tank_cut_knob (v : KnobTakeover) (s : Pedal) : Pedal :=
  ltac:(assign reverb_edit_tank_cut_knob s v).
Definition set_reverb_edit_mod_speed_switch (v : SwitchChangeDetector) (s : Pedal) : Pedal :=
  ltac:(assign reverb_edit_mod_speed_switch s v).
Definition set_reverb_edit_mod_depth_switch (v : SwitchChangeDetector) (s : Pedal) : Pedal :=
  ltac:(assign reverb_edit_mod_depth_switch s v).
Definition set_reverb_edit_mod_shape_switch (v : SwitchChangeDetector) (s : Pedal) : Pedal :=
  ltac:(assign reverb_edit_mod_shape_switch s v).
Definition set_master_delay_time_samples (v : float) (s : Pedal) : Pedal :=
  ltac:(assign master_delay_time_samples s v).
Definition set_current_makeup_gain (v : TremDelMakeUpGain) (s : Pedal) : Pedal :=
  ltac:(assign current_makeup_gain s v).
Definition set_harmonic_trem_lpf_L (v : LowPassFilter) (s : Pedal) : Pedal :=
  ltac:(assign harmonic_trem_lpf_L s v).
Definition set_harmonic_trem_lpf_R (v : LowPassFilter) (s : Pedal) : Pedal :=
  ltac:(assign harmonic_trem_lpf_R s v).
Definition set_harmonic_trem_hpf_L (v : HighPassFilter) (s : Pedal) : Pedal :=
  ltac:(assign harmonic_trem_hpf_L s v).
Definition set_harmonic_trem_hpf_R (v : HighPassFilter) (s : Pedal) : Pedal :=
  ltac:(assign harmonic_trem_hpf_R s v).
Definition set_harmonic_trem_eq_hpf1_L (v : HighPassFilter) (s : Pedal) : Pedal :=
  ltac:(assign harmonic_trem_eq_hpf1_L s v).
Definition set_harmonic_trem_eq_hpf1_R (v : HighPassFilter) (s : Pedal) : Pedal :=
  ltac:(assign harmonic_trem_eq_hpf1_R s v).
Definition set_harmonic_trem_eq_lpf1_L (v : LowPassFilter) (s : Pedal) : Pedal :=
  ltac:(assign harmonic_trem_eq_lpf1_L s v).
Definition set_harmonic_trem_eq_lpf1_R (v : LowPassFilter) (s : Pedal) : Pedal :=
  ltac:(assign harmonic_trem_eq_lpf1_R s v).
Definition set_harmonic_trem_eq_peak1_L (v : PeakingEQ) (s : Pedal) : Pedal :=
  ltac:(assign harmonic_trem_eq_peak1_L s v).
Definition set_harmonic_trem_eq_peak1_R (v : PeakingEQ) (s : Pedal) : Pedal :=
  ltac:(assign harmonic_trem_eq_peak1_R s v).
Definition set_harmonic_trem_eq_peak2_L (v : PeakingEQ) (s : Pedal) : Pedal :=
  ltac:(assign harmonic_trem_eq_peak2_L s v).
Definition set_harmonic_trem_eq_peak2_R (v : PeakingEQ) (s : Pedal) : Pedal :=
  ltac:(assign harmonic_trem_eq_peak2_R s v).
Definition set_harmonic_trem_eq_low_shelf_L (v : LowShelf) (s : Pedal) : Pedal :=
  ltac:(assign harmonic_trem_eq_low_shelf_L s v).
Definition set_harmonic_trem_eq_low_shelf_R (v : LowShelf) (s : Pedal) : Pedal :=
  ltac:(assign harmonic_trem_eq_low_shelf_R s v).
Definition set_notch1_L (v : PeakingEQ) (s : Pedal) : Pedal :=
  ltac:(assign notch1_L s v).
Definition set_notch1_R (v : PeakingEQ) (s : Pedal) : Pedal :=
  ltac:(assign notch1_R s v).
Definition set_notch2_L (v : PeakingEQ) (s : Pedal) : Pedal :=
  ltac:(assign notch2_L s v).
Definition set_notch2_R (v : PeakingEQ) (s : Pedal) : Pedal :=
  ltac:(assign notch2_R s v).
Definition set_plate_pre_delay (v : float) (s : Pedal) : Pedal :=
  ltac:(assign plate_pre_delay s v).
Definition set_plate_dry (v : float) (s : Pedal) : Pedal :=
  ltac:(assign plate_dry s v).
Definition set_plate_wet (v : float) (s : Pedal) : Pedal :=
  ltac:(assign plate_wet s v).
Definition set_plate_decay (v : float) (s : Pedal) : Pedal :=
  ltac:(assign plate_decay s v).
Definition set_plate_tank_diffusion (v : float) (s : Pedal) : Pedal :=
  ltac:(assign plate_tank_diffusion s v).
Definition set_plate_input_damp_high (v : float) (s : Pedal) : Pedal :=
  ltac:(assign plate_input_damp_high s v).
Definition set_plate_tank_damp_high (v : float) (s : Pedal) : Pedal :=
  ltac:(assign plate_tank_damp_high s v).
Definition set_plate_tank_mod_speed (v : float) (s : Pedal) : Pedal :=
  ltac:(assign plate_tank_mod_speed s v).
Definition set_plate_tank_mod_depth (v : float) (s : Pedal) : Pedal :=
  ltac:(assign plate_tank_mod_depth s v).
Definition set_plate_tank_mod_shape (v : float) (s : Pedal) : Pedal :=
  ltac:(assign plate_tank_mod_shape s v).
Definition set_left_input (v : float) (s : Pedal) : Pedal :=
  ltac:(assign left_input s v).
Definition set_right_input (v : float) (s : Pedal) : Pedal :=
  ltac:(assign right_input s v).
Definition set_left_output (v : float) (s : Pedal) : Pedal :=
  ltac:(assign left_output s v).
Definition set_right_output (v : float) (s : Pedal) : Pedal :=
  ltac:(assign right_output s v).
Definition set_reverb_dry_scale_factor (v : float) (s : Pedal) : Pedal :=
  ltac:(assign reverb_dry_scale_factor s v).
Definition set_reverb_reverse_scale_factor (v : float) (s : Pedal) : Pedal :=
  ltac:(assign reverb_reverse_scale_factor s v).
Definition set_trigger_settings_save (v : bool) (s : Pedal) : Pedal :=
  ltac:(assign trigger_settings_save s v).
Definition set_trem_val (v : float) (s : Pedal) : Pedal :=
  ltac:(assign trem_val s v).
Definition set_depth (v : float) (s : Pedal) : Pedal :=
  ltac:(assign depth s v).
Definition set_edit_count (v : Z) (s : Pedal) : Pedal :=
  ltac:(assign edit_count s v).
Definition set_edit_led_state (v : bool) (s : Pedal) : Pedal :=
  ltac:(assign edit_led_state s v).
Definition set_mono_stereo_edit_count (v : Z) (s : Pedal) : Pedal :=
  ltac:(assign mono_stereo_edit_count s v).
Definition set_mono_stereo_led_state (v : bool) (s : Pedal) : Pedal :=
  ltac:(assign mono_stereo_led_state s v).
Definition set_led_count (v : Z) (s : Pedal) : Pedal :=
  ltac:(assign led_count s v).

(** Statements in sequence read left to right. *)
Notation "s |> f" := (f s) (at level 50, left associativity, only parsing).

(** The [daisy::Parameter] objects, as [main] initialises them. *)
Definition p_verb_amt (hw : Hw) := Parameter_LINEAR 0 1 (knob_Value hw KNOB_1).
Definition p_trem_speed (hw : Hw) :=
  Parameter_LOGARITHMIC TREMOLO_SPEED_MIN TREMOLO_SPEED_MAX (knob_Value hw KNOB_2).
Definition p_trem_depth (hw : Hw) :=
  Parameter_LINEAR 0 TREMOLO_DEPTH_SCALE (knob_Value hw KNOB_3).
Definition p_delay_time (hw : Hw) :=
  Parameter_LOGARITHMIC (SAMPLE_RATE * DELAY_TIME_MIN_SECONDS)
    (inject_Z MAX_DELAY) (knob_Value hw KNOB_4).
Definition p_delay_feedback (hw : Hw) :=
  Parameter_LINEAR 0 1 (knob_Value hw KNOB_5).
Definition p_delay_amt (hw : Hw) := Parameter_LINEAR 0 100 (knob_Value hw KNOB_6).
Definition p_knob (k : Knob) (hw : Hw) := Parameter_LINEAR 0 1 (knob_Value hw k).

(** ** Settings: load, save, restore *)

Definition updateReverbScales (mode : MonoStereoMode) (s : Pedal) : Pedal :=
  if (mode =? MS_MODE_MIMO)%Z then
    s |> set_reverb_dry_scale_factor 5
      |> set_reverb_reverse_scale_factor (2 # 10)
  else if (mode =? MS_MODE_MISO)%Z || (mode =? MS_MODE_SISO)%Z then
    s |> set_reverb_dry_scale_factor (25 # 10)
      |> set_reverb_reverse_scale_factor (4 # 10)
  else s.

(** The setter calls that close [loadSettings]. *)
Definition loadSettings_verb (s : Pedal) : Dattorro :=
  verb s
  |> setPreDelay (plate_pre_delay s)
  |> setInputFilterHighCutoffPitch (plate_input_damp_high s)
  |> setDecay (plate_decay s)
  |> setTankDiffusion (plate_tank_diffusion s)
  |> setTankFilterHighCutFrequency (plate_tank_damp_high s)
  |> setTankModSpeed (plate_tank_mod_speed s * 8)
  |> setTankModDepth (plate_tank_mod_depth s * 15)
  |> setTankModShape (plate_tank_mod_shape s).

(** [loadSettings] calls itself after restoring the defaults; [fuel]
    bounds the depth of that recursion. *)
Fixpoint loadSettings (fuel : nat) (s : Pedal) : option Pedal :=
  match fuel with
  | O => None
  | S fuel' =>
      let local_settings := GetSettings (SavedSettings s) in
      let savedVersion := version local_settings in
      if negb (savedVersion =? SETTINGS_VERSION)%Z then
        loadSettings fuel'
          (set_SavedSettings (RestoreDefaults (SavedSettings s)) s)
      else
        let s := s |> set_plate_decay (decay local_settings)
                   |> set_plate_tank_diffusion (diffusion local_settings)
                   |> set_plate_input_damp_high (input_cutoff_freq local_settings)
                   |> set_plate_tank_damp_high (tank_cutoff_freq local_settings)
                   |> set_plate_tank_mod_speed (tank_mod_speed local_settings)
                   |> set_plate_tank_mod_depth (tank_mod_depth local_settings)
                   |> set_plate_tank_mod_shape (tank_mod_shape local_settings)
                   |> set_plate_pre_delay (pre_delay local_settings) in
        let s :=
          if (mono_stereo_mode_ local_settings <? MS_MODE_MIMO)%Z ||
             (mono_stereo_mode_ local_settings >? MS_MODE_SISO)%Z
          then set_mono_stereo_mode MS_MODE_MIMO s
          else set_mono_stereo_mode (mono_stereo_mode_ local_settings) s in
        let s := updateReverbScales (mono_stereo_mode s) s in
        let s := set_current_makeup_gain (makeup_gain_mode local_settings) s in
        let s :=
          if (current_makeup_gain s <? MAKEUP_GAIN_NONE)%Z ||
             (current_makeup_gain s >? MAKEUP_GAIN_HEAVY)%Z
          then set_current_makeup_gain MAKEUP_GAIN_NORMAL s
          else s in
        let s := s |> set_bypass_verb (bypass_reverb local_settings)
                   |> set_bypass_delay (bypass_delay_ local_settings)
                   |> set_bypass_trem (bypass_tremolo local_settings) in
        Some (set_verb (loadSettings_verb s) s)
  end.

Definition saveSettings (s : Pedal) : Pedal :=
  let r := GetSettings (SavedSettings s) in
  let r := mkSettings SETTINGS_VERSION (plate_decay s) (plate_tank_diffusion s)
             (plate_input_damp_high s) (plate_tank_damp_high s)
             (plate_tank_mod_speed s) (plate_tank_mod_depth s)
             (plate_tank_mod_shape s) (plate_pre_delay s)
             (mono_stereo_mode_ r) (makeup_gain_mode r) (bypass_reverb r)
             (bypass_delay_ r) (bypass_tremolo r) in
  s |> set_SavedSettings (PutSettings r (SavedSettings s))
    |> set_trigger_settings_save true.

Definition saveMonoStereoSettings (s : Pedal) : Pedal :=
  let r := GetSettings (SavedSettings s) in
  let r := mkSettings (version r) (decay r) (diffusion r) (input_cutoff_freq r)
             (tank_cutoff_freq r) (tank_mod_speed r) (tank_mod_depth r)
             (tank_mod_shape r) (pre_delay r)
             (mono_stereo_mode s) (current_makeup_gain s) (bypass_reverb r)
             (bypass_delay_ r) (bypass_tremolo r) in
  s |> set_SavedSettings (PutSettings r (SavedSettings s))
    |> set_trigger_settings_save true.

Definition saveBypassStates (s : Pedal) : Pedal :=
  let r := GetSettings (SavedSettings s) in
  let r := mkSettings (version r) (decay r) (diffusion r) (input_cutoff_freq r)
             (tank_cutoff_freq r) (tank_mod_speed r) (tank_mod_depth r)
             (tank_mod_shape r) (pre_delay r)
             (mono_stereo_mode_ r) (makeup_gain_mode r) (bypass_verb s)
             (bypass_delay s) (bypass_trem s) in
  s |> set_SavedSettings (PutSettings r (SavedSettings s))
    |> set_trigger_settings_save true.

Definition restoreReverbSettings (s : Pedal) : Pedal :=
  let local_settings := GetSettings (SavedSettings s) in
  let s := s |> set_plate_decay (decay local_settings)
             |> set_plate_tank_diffusion (diffusion local_settings)
             |> set_plate_input_damp_high (input_cutoff_freq local_settings)
             |> set_plate_tank_damp_high (tank_cutoff_freq local_settings)
             |> set_plate_tank_mod_speed (tank_mod_speed local_settings)
             |> set_plate_tank_mod_depth (tank_mod_depth local_settings)
             |> set_plate_tank_mod_shape (tank_mod_shape local_settings)
             |> set_plate_pre_delay (pre_delay local_settings) in
  set_verb
    (verb s
     |> setDecay (plate_decay s)
     |> setTankDiffusion (plate_tank_diffusion s)
     |> setInputFilterHighCutoffPitch (plate_input_damp_high s)
     |> setTankFilterHighCutFrequency (plate_tank_damp_high s)
     |> setTankModSpeed (plate_tank_mod_speed s * 8)
     |> setTankModDepth (plate_tank_mod_depth s * 15)
     |> setTankModShape (plate_tank_mod_shape s)
     |> setPreDelay (plate_pre_delay s)) s.

Definition restoreMonoStereoSettings (s : Pedal) : Pedal :=
  let local_settings := GetSettings (SavedSettings s) in
  let s := s |> set_mono_stereo_mode (mono_stereo_mode_ local_settings)
             |> set_current_makeup_gain (makeup_gain_mode local_settings) in
  updateReverbScales (mono_stereo_mode s) s.

(** ** Statement sequences

    A handler whose statement order matters is given as the list of its
    assignments; running the list is the handler, and running a prefix
    gives the state a reader would see part-way through. *)

Definition run_steps (steps : list (Pedal -> Pedal)) (s : Pedal) : Pedal :=
  fold_left (fun s f => f s) steps s.

(** ** Tap tempo *)

Definition enterTapTempoMode_steps (hw : Hw) (s0 : Pedal)
  : list (Pedal -> Pedal) :=
  let delay_active := negb (bypass_delay s0) in
  let tremolo_active := negb (bypass_trem s0) in
  [ set_tap_tempo_active true;
    set_tap_tempo_last_tap_time (GetNow hw) ]
  ++ (if negb delay_active && negb tremolo_active then
        [ set_tap_tempo_controls_delay true;
          set_tap_tempo_controls_tremolo true ]
      else if delay_active && tremolo_active then
        [ set_tap_tempo_controls_delay true;
          set_tap_tempo_controls_tremolo true ]
      else if delay_active && negb tremolo_active then
        [ set_tap_tempo_controls_delay true;
          set_tap_tempo_controls_tremolo false ]
      else if negb delay_active && tremolo_active then
        [ set_tap_tempo_controls_delay false;
          set_tap_tempo_controls_tremolo true ]
      else [])
  ++ [ (fun s => set_tap_tempo_delay_knob_takeover
                   (KnobTakeover_capture hw (tap_tempo_delay_knob_takeover s)) s);
       (fun s => set_tap_tempo_tremolo_knob_takeover
                   (KnobTakeover_capture hw (tap_tempo_tremolo_knob_takeover s)) s);
       set_pedal_mode PEDAL_MODE_TAP_TEMPO ].

Definition enterTapTempoMode (hw : Hw) (s : Pedal) : Pedal :=
  run_steps (enterTapTempoMode_steps hw s) s.

Definition exitTapTempoMode (s : Pedal) : Pedal :=
  s |> set_tap_tempo_active false |> set_pedal_mode PEDAL_MODE_NORMAL.

Definition handleTapTempoTap (hw : Hw) (s : Pedal) : Pedal :=
  let currentTime := GetNow hw in
  let s :=
    if (tap_tempo_last_tap_time s >? 0)%Z then
      let interval := uint32 (currentTime - tap_tempo_last_tap_time s) in
      if (interval >=? TAP_TEMPO_MIN_INTERVAL_MS)%Z &&
         (interval <=? TAP_TEMPO_MAX_INTERVAL_MS)%Z then
        let s := set_tap_tempo_interval_ms interval s in
        let s := set_tap_tempo_delay_samples
                   ((inject_Z interval / MS_PER_SECOND) * SAMPLE_RATE) s in
        let s := set_tap_tempo_delay_samples
                   (fclamp (tap_tempo_delay_samples s)
                      TAP_TEMPO_SAMPLES_MIN TAP_TEMPO_SAMPLES_MAX) s in
        let s := set_tap_tempo_tremolo_freq_hz
                   (MS_PER_SECOND / inject_Z interval) s in
        let s := set_tap_tempo_tremolo_freq_hz
                   (fclamp (tap_tempo_tremolo_freq_hz s)
                      TREMOLO_SPEED_MIN TREMOLO_SPEED_MAX) s in
        set_master_delay_time_samples (tap_tempo_delay_samples s) s
      else s
    else s in
  set_tap_tempo_last_tap_time currentTime s.

Definition checkTapTempoTimeout (hw : Hw) (s : Pedal) : Pedal :=
  if PedalMode_eqb (pedal_mode s) PEDAL_MODE_TAP_TEMPO then
    let currentTime := GetNow hw in
    if (uint32 (currentTime - tap_tempo_last_tap_time s)
          >=? TAP_TEMPO_TIMEOUT_MS)%Z
    then exitTapTempoMode s
    else s
  else s.

Definition applyDelaySubdivisionAndSetTargets (hw : Hw)
  (masterDelaySamples : float) (s : Pedal) : Pedal :=
  let subdivision :=
    kDelaySubdivisionMap (GetToggleswitchPosition hw TOGGLESWITCH_3) in
  let subdivision_multiplier : float :=
    match subdivision with
    | DELAY_SUBDIV_DOTTED_EIGHTH => 75 # 100
    | DELAY_SUBDIV_QUARTER_TRIPLET => 2 / 3
    | DELAY_SUBDIV_NORMAL => 1
    end in
  let final_delay_time := masterDelaySamples * subdivision_multiplier in
  let final_delay_time :=
    fclamp final_delay_time TAP_TEMPO_SAMPLES_MIN (inject_Z MAX_DELAY) in
  let setTarget (d : Delay) :=
    mkDelay (del d) (current_delay d) final_delay_time (feedback d) in
  s |> set_delayL (setTarget (delayL s))
    |> (fun s => set_delayR (setTarget (delayR s)) s).

(** ** Footswitch handlers *)

Definition handleNormalPress (hw : Hw) (footswitch : Switches) (s : Pedal)
  : Pedal :=
  match pedal_mode s with
  | PEDAL_MODE_TAP_TEMPO =>
      match footswitch with
      | FOOTSWITCH_1 => exitTapTempoMode s
      | FOOTSWITCH_2 => handleTapTempoTap hw s
      end
  | PEDAL_MODE_EDIT_REVERB =>
      let s := match footswitch with
               | FOOTSWITCH_2 => saveSettings s
               | FOOTSWITCH_1 => restoreReverbSettings s
               end in
      set_pedal_mode PEDAL_MODE_NORMAL s
  | PEDAL_MODE_EDIT_MONO_STEREO =>
      let s := match footswitch with
               | FOOTSWITCH_2 => saveMonoStereoSettings s
               | FOOTSWITCH_1 => restoreMonoStereoSettings s
               end in
      set_pedal_mode PEDAL_MODE_NORMAL s
  | PEDAL_MODE_NORMAL =>
      let s := match footswitch with
               | FOOTSWITCH_1 =>
                   let s := set_bypass_verb (negb (bypass_verb s)) s in
                   if bypass_verb s
                   then set_verb (Dattorro_clear (verb s)) s
                   else s
               | FOOTSWITCH_2 => set_bypass_delay (negb (bypass_delay s)) s
               end in
      saveBypassStates s
  end.

Definition handleDoublePress (hw : Hw) (footswitch : Switches) (s : Pedal)
  : Pedal :=
  if negb (PedalMode_eqb (pedal_mode s) PEDAL_MODE_NORMAL) then s
  else
    let s := handleNormalPress hw footswitch s in
    match footswitch with
    | FOOTSWITCH_1 => enterTapTempoMode hw s
    | FOOTSWITCH_2 =>
        let s := set_bypass_trem (negb (bypass_trem s)) s in
        saveBypassStates s
    end.

Definition handleLongPress_steps (hw : Hw) (footswitch : Switches)
  : list (Pedal -> Pedal) :=
  let knob_capture get set :=
    fun s : Pedal => set (KnobTakeover_capture hw (get s)) s in
  let switch_capture get set :=
    fun s : Pedal => set (SwitchChangeDetector_capture hw (get s)) s in
  match footswitch with
  | FOOTSWITCH_1 =>
      [ set_bypass_verb false;
        knob_capture reverb_edit_wet_amount_knob set_reverb_edit_wet_amount_knob;
        knob_capture reverb_edit_pre_delay_knob set_reverb_edit_pre_delay_knob;
        knob_capture reverb_edit_decay_knob set_reverb_edit_decay_knob;
        knob_capture reverb_edit_diffusion_knob set_reverb_edit_diffusion_knob;
        knob_capture reverb_edit_input_cut_knob set_reverb_edit_input_cut_knob;
        knob_capture reverb_edit_tank_cut_knob set_reverb_edit_tank_cut_knob;
        switch_capture reverb_edit_mod_speed_switch set_reverb_edit_mod_speed_switch;
        switch_capture reverb_edit_mod_depth_switch set_reverb_edit_mod_depth_switch;
        switch_capture reverb_edit_mod_shape_switch set_reverb_edit_mod_shape_switch;
        set_pedal_mode PEDAL_MODE_EDIT_REVERB ]
  | FOOTSWITCH_2 =>
      [ set_bypass_verb false;
        set_bypass_delay true;
        set_bypass_trem true;
        set_pedal_mode PEDAL_MODE_EDIT_MONO_STEREO ]
  end.

Definition handleLongPress (hw : Hw) (footswitch : Switches) (s : Pedal)
  : Pedal :=
  run_steps (handleLongPress_steps hw footswitch) s.

Definition hardLimit100_ (x : float) : float :=
  if fgt x 1 then 1 else if flt x (-1) then -1 else x.

(** ** The audio callback *)

Inductive Gesture := NormalPress | DoublePress | LongPress.

(** What [hw.ProcessAllControls()] dispatches to the registered callbacks. *)
Definition dispatch (hw : Hw) (e : Gesture * Switches) (s : Pedal) : Pedal :=
  match fst e with
  | NormalPress => handleNormalPress hw (snd e) s
  | DoublePress => handleDoublePress hw (snd e) s
  | LongPress => handleLongPress hw (snd e) s
  end.

Definition AudioCallback_reverb_type (hw : Hw) (s : Pedal) : Pedal :=
  if PLATFORM_funbox hw then
    let dip1 := DIP_SWITCH_1 hw in
    let dip2 := DIP_SWITCH_2 hw in
    if negb dip1 && negb dip2 then set_current_reverb_type REVERB_PLATE s
    else if negb dip1 && dip2 then set_current_reverb_type REVERB_SPRING s
    else if dip1 && negb dip2 then set_current_reverb_type REVERB_HALL s
    else set_current_reverb_type REVERB_PLATE s
  else set_current_reverb_type REVERB_PLATE s.

(** Tap tempo mode: the left LED pulses slowly, the right one blinks at
    the tapped tempo once there is one. *)
Definition AudioCallback_tap_tempo_leds (hw : Hw) (s : Pedal) : Pedal :=
  let pulse (slow_pulse : Z) : float :=
    if (slow_pulse <? 500)%Z then 1 else 1 # 10 in
  let slow_pulse := (GetNow hw mod 1000)%Z in
  let s := set_led_left (pulse slow_pulse) s in
  if (tap_tempo_interval_ms s >? 0)%Z then
    let blink_phase := (GetNow hw mod tap_tempo_interval_ms s)%Z in
    let blink_threshold :=
      inject_Z (tap_tempo_interval_ms s) * TAP_TEMPO_BLINK_DUTY_CYCLE in
    if flt (inject_Z blink_phase) blink_threshold
    then set_led_right 1 s
    else set_led_right (1 # 10) s
  else set_led_right (pulse slow_pulse) s.

(** The first chain on [pedal_mode]: the LEDs and, in tap tempo mode, the
    tapped tempo applied to the delay targets and the oscillator. *)
Definition AudioCallback_indicate (hw : Hw) (s : Pedal) : Pedal :=
  let on_off (b : bool) : float := if b then 1 else 0 in
  match pedal_mode s with
  | PEDAL_MODE_EDIT_REVERB =>
      let s := set_edit_count (uint32 (edit_count s + 1)) s in
      if fge (inject_Z (edit_count s)) (AudioCallbackRate hw / 2) then
        let s := set_edit_count 0%Z s in
        let s := set_edit_led_state (negb (edit_led_state s)) s in
        s |> set_led_left (on_off (edit_led_state s))
          |> set_led_right (on_off (edit_led_state s))
      else s
  | PEDAL_MODE_EDIT_MONO_STEREO =>
      let s := set_mono_stereo_edit_count
                 (uint32 (mono_stereo_edit_count s + 1)) s in
      if fge (inject_Z (mono_stereo_edit_count s)) (AudioCallbackRate hw / 2)
      then
        let s := set_mono_stereo_edit_count 0%Z s in
        let s := set_mono_stereo_led_state (negb (mono_stereo_led_state s)) s in
        s |> set_led_left (on_off (mono_stereo_led_state s))
          |> set_led_right (on_off (negb (mono_stereo_led_state s)))
      else s
  | PEDAL_MODE_TAP_TEMPO =>
      let s := AudioCallback_tap_tempo_leds hw s in
      let s := applyDelaySubdivisionAndSetTargets hw (tap_tempo_delay_samples s) s in
      if tap_tempo_controls_tremolo s
      then set_osc (osc_SetFreq (tap_tempo_tremolo_freq_hz s) (osc s)) s
      else s
  | PEDAL_MODE_NORMAL =>
      let s := set_led_left (if bypass_verb s then 0 else 1) s in
      let s := set_led_count (led_count s + 1)%Z s in
      if feq (inject_Z (led_count s)) (AudioCallbackRate hw / 100) then
        let s := set_led_count 0%Z s in
        set_led_right
          (if bypass_trem s
           then (if bypass_delay s then 0 else 1)
           else (if bypass_delay s
                 then trem_val s * TREMOLO_LED_BRIGHTNESS
                 else trem_val s)) s
      else s
  end.

(** Normal mode: tremolo speed, depth and waveform. *)
Definition AudioCallback_normal_tremolo (hw : Hw) (s : Pedal) : Pedal :=
  let s :=
    if tap_tempo_controls_tremolo s then
      let '(took, k) := checkTakeover hw (tap_tempo_tremolo_knob_takeover s) in
      let s := set_tap_tempo_tremolo_knob_takeover k s in
      if took then
        s |> set_tap_tempo_controls_tremolo false
          |> (fun s => set_osc (osc_SetFreq (p_trem_speed hw) (osc s)) s)
      else set_osc (osc_SetFreq (tap_tempo_tremolo_freq_hz s) (osc s)) s
    else set_osc (osc_SetFreq (p_trem_speed hw) (osc s)) s in
  let tremMode := kTremoloModeMap (GetToggleswitchPosition hw TOGGLESWITCH_2) in
  let s := set_depth (fclamp (p_trem_depth hw) 0 1) s in
  let s :=
    match tremMode with
    | TREMOLO_HARMONIC => set_depth (depth s * (125 # 100)) s
    | _ => set_depth (depth s * (5 # 10)) s
    end in
  let s := set_osc (osc_SetAmp (depth s) (osc s)) s in
  let s := set_dc_offset (1 - depth s) s in
  match tremMode with
  | TREMOLO_SQUARE => set_osc (osc_SetWaveform WAVE_SQUARE_ROUNDED (osc s)) s
  | TREMOLO_SINE | TREMOLO_HARMONIC =>
      set_osc (osc_SetWaveform WAVE_SIN (osc s)) s
  end.

(** Normal mode: delay time source, subdivision, feedback and mix. *)
Definition AudioCallback_normal_delay (hw : Hw) (s : Pedal) : Pedal :=
  let s :=
    if tap_tempo_controls_delay s then
      let '(took, k) := checkTakeover hw (tap_tempo_delay_knob_takeover s) in
      let s := set_tap_tempo_delay_knob_takeover k s in
      if took then
        s |> set_tap_tempo_controls_delay false
          |> set_master_delay_time_samples (p_delay_time hw)
      else set_master_delay_time_samples (tap_tempo_delay_samples s) s
    else set_master_delay_time_samples (p_delay_time hw) s in
  let s := applyDelaySubdivisionAndSetTargets hw (master_delay_time_samples s) s in
  let setFeedback (d : Delay) :=
    mkDelay (del d) (current_delay d) (delay_target d) (p_delay_feedback hw) in
  let s := s |> (fun s => set_delayR (setFeedback (delayR s)) s)
             |> (fun s => set_delayL (setFeedback (delayL s)) s) in
  set_delay_drywet (to_int (p_delay_amt hw)) s.

Definition AudioCallback_normal_reverb_mix (hw : Hw) (s : Pedal) : Pedal :=
  match kReverbKnobMap (GetToggleswitchPosition hw TOGGLESWITCH_1) with
  | REVERB_KNOB_ALL_DRY => set_plate_dry 1 s
  | REVERB_KNOB_DRY_WET_MIX => set_plate_dry (1 - plate_wet s) s
  | REVERB_KNOB_ALL_WET => set_plate_dry 0 s
  end.

(** Edit-reverb mode: a control writes its parameter once it has taken over. *)
Definition AudioCallback_edit_reverb (hw : Hw) (s : Pedal) : Pedal :=
  let on_knob get set (write : Pedal -> Pedal) (s : Pedal) : Pedal :=
    let '(took, k) := checkTakeover hw (get s) in
    let s := set k s in
    if took then write s else s in
  let on_switch get set (write : Pedal -> Pedal) (s : Pedal) : Pedal :=
    let '(moved, d) := checkChange hw (get s) in
    let s := set d s in
    if moved then write s else s in
  let s := set_plate_dry 1 s in
  let s := on_knob reverb_edit_wet_amount_knob set_reverb_edit_wet_amount_knob
             (set_plate_wet (p_verb_amt hw)) s in
  let s := on_knob reverb_edit_pre_delay_knob set_reverb_edit_pre_delay_knob
             (set_plate_pre_delay (p_knob KNOB_2 hw * (25 # 100))) s in
  let s := on_knob reverb_edit_decay_knob set_reverb_edit_decay_knob
             (set_plate_decay (p_knob KNOB_3 hw)) s in
  let s := on_knob reverb_edit_diffusion_knob set_reverb_edit_diffusion_knob
             (set_plate_tank_diffusion (p_knob KNOB_4 hw)) s in
  let s := on_knob reverb_edit_input_cut_knob set_reverb_edit_input_cut_knob
             (set_plate_input_damp_high (p_knob KNOB_5 hw * 10)) s in
  let s := on_knob reverb_edit_tank_cut_knob set_reverb_edit_tank_cut_knob
             (set_plate_tank_damp_high (p_knob KNOB_6 hw * 10)) s in
  let s := on_switch reverb_edit_mod_speed_switch set_reverb_edit_mod_speed_switch
             (set_plate_tank_mod_speed
                (tank_mod_values (GetToggleswitchPosition hw TOGGLESWITCH_1))) s in
  let s := on_switch reverb_edit_mod_depth_switch set_reverb_edit_mod_depth_switch
             (set_plate_tank_mod_depth
                (tank_mod_values (GetToggleswitchPosition hw TOGGLESWITCH_2))) s in
  let s := on_switch reverb_edit_mod_shape_switch set_reverb_edit_mod_shape_switch
             (set_plate_tank_mod_shape
                (tank_mod_values (GetToggleswitchPosition hw TOGGLESWITCH_3))) s in
  set_verb
    (verb s
     |> setDecay (plate_decay s)
     |> setTankDiffusion (plate_tank_diffusion s)
     |> setInputFilterHighCutoffPitch (plate_input_damp_high s)
     |> setTankFilterHighCutFrequency (plate_tank_damp_high s)
     |> setTankModSpeed (plate_tank_mod_speed s * 8)
     |> setTankModDepth (plate_tank_mod_depth s * 15)
     |> setTankModShape (plate_tank_mod_shape s)
     |> setPreDelay (plate_pre_delay s)) s.

(** The second chain on [pedal_mode]: the block-rate parameters. *)
Definition AudioCallback_parameters (hw : Hw) (s : Pedal) : Pedal :=
  let s := set_plate_wet (p_verb_amt hw) s in
  match pedal_mode s with
  | PEDAL_MODE_NORMAL =>
      s |> AudioCallback_normal_tremolo hw
        |> AudioCallback_normal_delay hw
        |> AudioCallback_normal_reverb_mix hw
  | PEDAL_MODE_EDIT_REVERB => AudioCallback_edit_reverb hw s
  | PEDAL_MODE_EDIT_MONO_STEREO =>
      let s := set_mono_stereo_mode
                 (kMonoStereoModeMap (GetToggleswitchPosition hw TOGGLESWITCH_3)) s in
      let s := updateReverbScales (mono_stereo_mode s) s in
      set_current_makeup_gain
        (kMakeupGainMap (GetToggleswitchPosition hw TOGGLESWITCH_2)) s
  | PEDAL_MODE_TAP_TEMPO => s
  end.

(** One filter applied to both channels, left first. *)
Definition both {F : Type} (process : F -> float -> float * F)
  (getL getR : Pedal -> F) (setL setR : F -> Pedal -> Pedal)
  (x : float * float) (s : Pedal) : (float * float) * Pedal :=
  let '(s_L, f) := process (getL s) (fst x) in
  let s := setL f s in
  let '(s_R, f) := process (getR s) (snd x) in
  let s := setR f s in
  ((s_L, s_R), s).

(** The two fixed notches, always in circuit. *)
Definition sample_notch (x : float * float) (s : Pedal)
  : (float * float) * Pedal :=
  let '(x, s) := both PeakingEQ_Process notch1_L notch1_R
                   set_notch1_L set_notch1_R x s in
  both PeakingEQ_Process notch2_L notch2_R set_notch2_L set_notch2_R x s.

(** The delay stage of the sample loop; skipped as a whole when bypassed. *)
Definition sample_delay (delay_make_up_gain : float) (x : float * float)
  (s : Pedal) : (float * float) * Pedal :=
  let '(s_L, s_R) := x in
  if negb (bypass_delay s) then
    let fdrywet := inject_Z (delay_drywet s) / DELAY_DRY_WET_PERCENT_MAX in
    let '(sigL, d) := Delay_Process s_L (delayL s) in
    let s := set_delayL d s in
    let '(sigR, d) := Delay_Process s_R (delayR s) in
    let s := set_delayR d s in
    let mixL := 0 + sigL in
    let mixR := 0 + sigR in
    let s_L := fdrywet * mixL * DELAY_WET_MIX_ATTENUATION
               + (1 - fdrywet) * s_L * delay_make_up_gain in
    let s_R := fdrywet * mixR * DELAY_WET_MIX_ATTENUATION
               + (1 - fdrywet) * s_R * delay_make_up_gain in
    ((s_L, s_R), s)
  else ((s_L, s_R), s).

(** The tremolo stage of the sample loop; skipped as a whole when bypassed. *)
Definition sample_tremolo (hw : Hw) (trem_make_up_gain : float)
  (x : float * float) (s : Pedal) : (float * float) * Pedal :=
  let '(s_L, s_R) := x in
  if negb (bypass_trem s) then
    let tremMode :=
      if PedalMode_eqb (pedal_mode s) PEDAL_MODE_NORMAL
      then kTremoloModeMap (GetToggleswitchPosition hw TOGGLESWITCH_2)
      else TREMOLO_SINE in
    let '(lfoSample, o) := osc_Process (osc s) in
    let s := set_osc o s in
    let s := set_trem_val (dc_offset s + lfoSample) s in
    match tremMode with
    | TREMOLO_HARMONIC =>
        let '(lowL, f) := LowPassFilter_Process (harmonic_trem_lpf_L s) s_L in
        let s := set_harmonic_trem_lpf_L f s in
        let '(highL, f) := HighPassFilter_Process (harmonic_trem_hpf_L s) s_L in
        let s := set_harmonic_trem_hpf_L f s in
        let lowModL := lowL * (1 + lfoSample) in
        let highModL := highL * (1 - lfoSample) in
        let s_L := (lowModL + highModL) * trem_make_up_gain in
        let '(lowR, f) := LowPassFilter_Process (harmonic_trem_lpf_R s) s_R in
        let s := set_harmonic_trem_lpf_R f s in
        let '(highR, f) := HighPassFilter_Process (harmonic_trem_hpf_R s) s_R in
        let s := set_harmonic_trem_hpf_R f s in
        let lowModR := lowR * (1 + lfoSample) in
        let highModR := highR * (1 - lfoSample) in
        let s_R := (lowModR + highModR) * trem_make_up_gain in
        let '(x, s) := both HighPassFilter_Process
                         harmonic_trem_eq_hpf1_L harmonic_trem_eq_hpf1_R
                         set_harmonic_trem_eq_hpf1_L set_harmonic_trem_eq_hpf1_R
                         (s_L, s_R) s in
        let '(x, s) := both LowPassFilter_Process
                         harmonic_trem_eq_lpf1_L harmonic_trem_eq_lpf1_R
                         set_harmonic_trem_eq_lpf1_L set_harmonic_trem_eq_lpf1_R
                         x s in
        let '(x, s) := both LowShelf_Process
                         harmonic_trem_eq_low_shelf_L harmonic_trem_eq_low_shelf_R
                         set_harmonic_trem_eq_low_shelf_L
                         set_harmonic_trem_eq_low_shelf_R x s in
        let '(x, s) := both PeakingEQ_Process
                         harmonic_trem_eq_peak2_L harmonic_trem_eq_peak2_R
                         set_harmonic_trem_eq_peak2_L set_harmonic_trem_eq_peak2_R
                         x s in
        both PeakingEQ_Process
          harmonic_trem_eq_peak1_L harmonic_trem_eq_peak1_R
          set_harmonic_trem_eq_peak1_L set_harmonic_trem_eq_peak1_R x s
    | _ =>
        ((s_L * trem_val s * trem_make_up_gain,
          s_R * trem_val s * trem_make_up_gain), s)
    end
  else ((s_L, s_R), s).

(** The reverb stage: the selected engine is fed on every sample. *)
Definition sample_reverb (x : float * float) (s : Pedal)
  : (float * float) * Pedal :=
  let '(s_L, s_R) := x in
  let s := set_left_input (hardLimit100_ s_L * reverb_dry_scale_factor s) s in
  let s := set_right_input (hardLimit100_ s_R * reverb_dry_scale_factor s) s in
  let gain := minus_18db_gain * minus_20db_gain
              * (1 + input_amplification * 7) * clearPopCancelValue (verb s) in
  let '(rev, s) :=
    match current_reverb_type s with
    | REVERB_PLATE =>
        let v := verb s
                 |> setDecay (plate_decay s)
                 |> setTankDiffusion (plate_tank_diffusion s)
                 |> setInputFilterHighCutoffPitch (plate_input_damp_high s)
                 |> setTankFilterHighCutFrequency (plate_tank_damp_high s)
                 |> setTankModSpeed (plate_tank_mod_speed s * 8)
                 |> setTankModDepth (plate_tank_mod_depth s * 15)
                 |> setTankModShape (plate_tank_mod_shape s)
                 |> setPreDelay (plate_pre_delay s)
                 |> Dattorro_process (left_input s * gain) (right_input s * gain) in
        ((getLeftOutput v, getRightOutput v), set_verb v s)
    | REVERB_SPRING =>
        let '(r, e) := SpringReverb_ProcessSample
                         (left_input s * gain) (right_input s * gain)
                         (spring_reverb s) in
        (r, set_spring_reverb e s)
    | REVERB_HALL =>
        let '(r, e) := HallReverb_ProcessSample
                         (left_input s * gain) (right_input s * gain)
                         (hall_reverb s) in
        ((fst r * 4, snd r * 4), set_hall_reverb e s)
    end in
  let '(rev_l, rev_r) := rev in
  if negb (bypass_verb s) then
    let s := set_left_output
               (left_input s * plate_dry s * reverb_reverse_scale_factor s
                + rev_l * plate_wet s * clearPopCancelValue (verb s)) s in
    let s := set_right_output
               (right_input s * plate_dry s * reverb_reverse_scale_factor s
                + rev_r * plate_wet s * clearPopCancelValue (verb s)) s in
    ((left_output s, right_output s), s)
  else ((s_L, s_R), s).

(** The body of the sample loop: one input frame in, one output frame out. *)
Definition AudioCallback_sample (hw : Hw) (dry : float * float) (s : Pedal)
  : (float * float) * Pedal :=
  let '(dry_L, dry_R) := dry in
  let s_L := dry_L in
  let s_R :=
    if (mono_stereo_mode s =? MS_MODE_MIMO)%Z ||
       (mono_stereo_mode s =? MS_MODE_MISO)%Z
    then dry_L else dry_R in
  let '(x, s) := sample_notch (s_L, s_R) s in
  let '(trem_make_up_gain, delay_make_up_gain) :=
    if (current_makeup_gain s =? MAKEUP_GAIN_HEAVY)%Z then (16 # 10, 2)
    else if (current_makeup_gain s =? MAKEUP_GAIN_NORMAL)%Z
    then (12 # 10, 166 # 100)
    else (1, 1) in
  let '(x, s) := sample_delay delay_make_up_gain x s in
  let '(x, s) := sample_tremolo hw trem_make_up_gain x s in
  let '(x, s) := sample_reverb x s in
  let '(s_L, s_R) := x in
  if (mono_stereo_mode s =? MS_MODE_MIMO)%Z
  then ((s_L * (5 # 10) + s_R * (5 # 10), 0), s)
  else ((s_L, s_R), s).

(** The sample loop over one block. *)
Fixpoint AudioCallback_loop (hw : Hw) (input : list (float * float)) (s : Pedal)
  : list (float * float) * Pedal :=
  match input with
  | [] => ([], s)
  | dry :: rest =>
      let '(y, s) := AudioCallback_sample hw dry s in
      let '(ys, s) := AudioCallback_loop hw rest s in
      (y :: ys, s)
  end.

(** One invocation: the controls are processed (which runs the footswitch
    callbacks), the block-rate state is refreshed, the block is rendered. *)
Definition AudioCallback (hw : Hw) (events : list (Gesture * Switches))
  (input : list (float * float)) (s : Pedal) : list (float * float) * Pedal :=
  let s := fold_left (fun s e => dispatch hw e s) events s in
  s |> AudioCallback_reverb_type hw
    |> AudioCallback_indicate hw
    |> AudioCallback_parameters hw
    |> AudioCallback_loop hw input.

(** ** [main]: the initialisers, the start-up sequence, the control loop *)

(** The initialisers of the globals; the DSP objects and the storage
    object are left as they are. *)
Definition static_init (s : Pedal) : Pedal :=
  let zeroed (d : Delay) := mkDelay (del d) 0 0 0 in
  s |> set_dc_offset 0
    |> set_current_reverb_type REVERB_PLATE
    |> set_pedal_mode PEDAL_MODE_NORMAL
    |> set_mono_stereo_mode MS_MODE_MIMO
    |> set_delayL (zeroed (delayL s))
    |> set_delayR (zeroed (delayR s))
    |> set_delay_drywet 0%Z
    |> set_led_left 0
    |> set_led_right 0
    |> set_bypass_verb true
    |> set_bypass_trem true
    |> set_bypass_delay true
    |> set_tap_tempo_active false
    |> set_tap_tempo_last_tap_time 0%Z
    |> set_tap_tempo_interval_ms 0%Z
    |> set_tap_tempo_delay_samples 0
    |> set_tap_tempo_controls_delay false
    |> set_tap_tempo_tremolo_freq_hz 0
    |> set_tap_tempo_controls_tremolo false
    |> set_tap_tempo_delay_knob_takeover KnobTakeover_new
    |> set_tap_tempo_tremolo_knob_takeover KnobTakeover_new
    |> set_reverb_edit_wet_amount_knob KnobTakeover_new
    |> set_reverb_edit_pre_delay_knob KnobTakeover_new
    |> set_reverb_edit_decay_knob KnobTakeover_new
    |> set_reverb_edit_diffusion_knob KnobTakeover_new
    |> set_reverb_edit_input_cut_knob KnobTakeover_new
    |> set_reverb_edit_tank_cut_knob KnobTakeover_new
    |> set_reverb_edit_mod_speed_switch SwitchChangeDetector_new
    |> set_reverb_edit_mod_depth_switch SwitchChangeDetector_new
    |> set_reverb_edit_mod_shape_switch SwitchChangeDetector_new
    |> set_master_delay_time_samples 0
    |> set_current_makeup_gain MAKEUP_GAIN_NORMAL
    |> set_plate_pre_delay 0
    |> set_plate_dry 1
    |> set_plate_wet (5 # 10)
    |> set_plate_decay (8 # 10)
    |> set_plate_tank_diffusion (85 # 100)
    |> set_plate_input_damp_high (725 # 100)
    |> set_plate_tank_damp_high (725 # 100)
    |> set_plate_tank_mod_speed (1 # 10)
    |> set_plate_tank_mod_depth (1 # 10)
    |> set_plate_tank_mod_shape (25 # 100)
    |> set_left_input 0
    |> set_right_input 0
    |> set_left_output 0
    |> set_right_output 0
    |> set_reverb_dry_scale_factor 1
    |> set_reverb_reverse_scale_factor 1
    |> set_trigger_settings_save false
    |> set_trem_val 0
    |> set_depth 0
    |> set_edit_count 0%Z
    |> set_edit_led_state true
    |> set_mono_stereo_edit_count 0%Z
    |> set_mono_stereo_led_state true
    |> set_led_count 0%Z.

(** The binding of the takeover objects to their controls. *)
Definition main_bind_takeovers (s : Pedal) : Pedal :=
  s |> (fun s => set_tap_tempo_delay_knob_takeover
                   (KnobTakeover_init KNOB_4 (tap_tempo_delay_knob_takeover s)) s)
    |> (fun s => set_tap_tempo_tremolo_knob_takeover
                   (KnobTakeover_init KNOB_2 (tap_tempo_tremolo_knob_takeover s)) s)
    |> (fun s => set_reverb_edit_wet_amount_knob
                   (KnobTakeover_init KNOB_1 (reverb_edit_wet_amount_knob s)) s)
    |> (fun s => set_reverb_edit_pre_delay_knob
                   (KnobTakeover_init KNOB_2 (reverb_edit_pre_delay_knob s)) s)
    |> (fun s => set_reverb_edit_decay_knob
                   (KnobTakeover_init KNOB_3 (reverb_edit_decay_knob s)) s)
    |> (fun s => set_reverb_edit_diffusion_knob
                   (KnobTakeover_init KNOB_4 (reverb_edit_diffusion_knob s)) s)
    |> (fun s => set_reverb_edit_input_cut_knob
                   (KnobTakeover_init KNOB_5 (reverb_edit_input_cut_knob s)) s)
    |> (fun s => set_reverb_edit_tank_cut_knob
                   (KnobTakeover_init KNOB_6 (reverb_edit_tank_cut_knob s)) s)
    |> (fun s => set_reverb_edit_mod_speed_switch
                   (SwitchChangeDetector_init TOGGLESWITCH_1
                      (reverb_edit_mod_speed_switch s)) s)
    |> (fun s => set_reverb_edit_mod_depth_switch
                   (SwitchChangeDetector_init TOGGLESWITCH_2
                      (reverb_edit_mod_depth_switch s)) s)
    |> (fun s => set_reverb_edit_mod_shape_switch
                   (SwitchChangeDetector_init TOGGLESWITCH_3
                      (reverb_edit_mod_shape_switch s)) s).

(** The record [main] hands to [SavedSettings.Init]. *)
Definition main_defaultSettings (s : Pedal) : Settings :=
  mkSettings SETTINGS_VERSION (plate_decay s) (plate_tank_diffusion s)
    (plate_input_damp_high s) (plate_tank_damp_high s)
    (plate_tank_mod_speed s) (plate_tank_mod_depth s) (plate_tank_mod_shape s)
    (plate_pre_delay s) MS_MODE_MIMO MAKEUP_GAIN_NORMAL true true true.

(** Start-up up to and including [loadSettings()]. *)
Definition main_startup (fuel : nat) (s0 : Pedal) : option Pedal :=
  let s := main_bind_takeovers (static_init s0) in
  let s := set_SavedSettings
             (Storage_Init (main_defaultSettings s) (SavedSettings s)) s in
  loadSettings fuel s.

(** The part of the control loop that flushes the settings record. *)
Definition main_loop_flush (s : Pedal) : Pedal :=
  if trigger_settings_save s then
    s |> set_SavedSettings (Save (SavedSettings s))
      |> set_trigger_settings_save false
  else s.

Definition main_loop_iteration (hw : Hw) (s : Pedal) : Pedal :=
  s |> checkTapTempoTimeout hw |> main_loop_flush.

End ControlFile.

Arguments Pedal L : clear implicits.
Arguments Delay L : clear implicits.

(** The compiled-in defaults: [main_defaultSettings] on the initialisers. *)
Definition defaultSettings : Settings :=
  mkSettings SETTINGS_VERSION (8 # 10) (85 # 100) (725 # 100) (725 # 100)
    (1 # 10) (1 # 10) (25 # 100) 0 MS_MODE_MIMO MAKEUP_GAIN_NORMAL
    true true true.

(** ** The capture-based control file (settings version 4)

    The control file that includes [parameter_capture.h].  Its settings
    record has no makeup-gain field and keeps the tremolo flag before the
    delay flag.  [loadSettings] and [updateReverbScales] are given over
    the globals they read and write; the storage object is the same
    library class, over this record. *)

Module CaptureFile.

Definition SETTINGS_VERSION : Z := 4%Z.
Definition PLATE_TANK_MOD_SPEED_SCALE : float := 8.
Definition PLATE_TANK_MOD_DEPTH_SCALE : float := 15.

Record Settings := mkSettings {
  version : Z;
  decay : float;
  diffusion : float;
  input_cutoff_freq : float;
  tank_cutoff_freq : float;
  tank_mod_speed : float;
  tank_mod_depth : float;
  tank_mod_shape : float;
  pre_delay : float;
  mono_stereo_mode_ : Z;      (* Settings::mono_stereo_mode *)
  bypass_reverb : bool;
  bypass_tremolo : bool;
  bypass_delay_ : bool        (* Settings::bypass_delay *)
}.

Record PersistentStorage := mkStorage {
  settings_ : Settings;
  default_settings_ : Settings;
  state_ : StorageState;
  qspi : StorageState * Settings
}.

Definition StoreSettings (p : PersistentStorage) : PersistentStorage :=
  mkStorage (settings_ p) (default_settings_ p) (state_ p)
            (state_ p, settings_ p).

Definition GetSettings (p : PersistentStorage) : Settings := settings_ p.

Definition RestoreDefaults (p : PersistentStorage) : PersistentStorage :=
  StoreSettings
    (mkStorage (default_settings_ p) (default_settings_ p) STATE_FACTORY
               (qspi p)).

Section Globals.

Context {L : DspLib}.

Record Globals := mkGlobals {
  SavedSettings : PersistentStorage;
  verb : Dattorro;
  mono_stereo_mode : MonoStereoMode;
  bypass_verb : bool;
  bypass_trem : bool;
  bypass_delay : bool;
  plate_pre_delay : float;
  plate_decay : float;
  plate_tank_diffusion : float;
  plate_input_damp_high : float;
  plate_tank_damp_high : float;
  plate_tank_mod_speed : float;
  plate_tank_mod_depth : float;
  plate_tank_mod_shape : float;
  reverb_dry_scale_factor : float;
  reverb_reverse_scale_factor : float
}.

Definition updateReverbScales (mode : MonoStereoMode) (g : Globals)
  : Globals :=
  let scaled (dry reverse : float) :=
    mkGlobals (SavedSettings g) (verb g) (mono_stereo_mode g) (bypass_verb g)
      (bypass_trem g) (bypass_delay g) (plate_pre_delay g) (plate_decay g)
      (plate_tank_diffusion g) (plate_input_damp_high g)
      (plate_tank_damp_high g) (plate_tank_mod_speed g)
      (plate_tank_mod_depth g) (plate_tank_mod_shape g) dry reverse in
  if (mode =? MS_MODE_MIMO)%Z then scaled 5 (2 # 10)
  else if (mode =? MS_MODE_MISO)%Z || (mode =? MS_MODE_SISO)%Z
  then scaled (25 # 10) (4 # 10)
  else g.

(** The stored index goes into [mono_stereo_mode] through a
    [static_cast], with no test of its range. *)
Fixpoint loadSettings (fuel : nat) (g : Globals) : option Globals :=
  match fuel with
  | O => None
  | S fuel' =>
      let local_settings := GetSettings (SavedSettings g) in
      let savedVersion := version local_settings in
      if negb (savedVersion =? SETTINGS_VERSION)%Z then
        loadSettings fuel'
          (mkGlobals (RestoreDefaults (SavedSettings g)) (verb g)
             (mono_stereo_mode g) (bypass_verb g) (bypass_trem g)
             (bypass_delay g) (plate_pre_delay g) (plate_decay g)
             (plate_tank_diffusion g) (plate_input_damp_high g)
             (plate_tank_damp_high g) (plate_tank_mod_speed g)
             (plate_tank_mod_depth g) (plate_tank_mod_shape g)
             (reverb_dry_scale_factor g) (reverb_reverse_scale_factor g))
      else
        let g :=
          mkGlobals (SavedSettings g) (verb g)
            (mono_stereo_mode_ local_settings)
            (bypass_verb g) (bypass_trem g) (bypass_delay g)
            (pre_delay local_settings) (decay local_settings)
            (diffusion local_settings) (input_cutoff_freq local_settings)
            (tank_cutoff_freq local_settings) (tank_mod_speed local_settings)
            (tank_mod_depth local_settings) (tank_mod_shape local_settings)
            (reverb_dry_scale_factor g) (reverb_reverse_scale_factor g) in
        let g := updateReverbScales (mono_stereo_mode g) g in
        let v :=
          setTankModShape (plate_tank_mod_shape g)
            (setTankModDepth
               (plate_tank_mod_depth g * PLATE_TANK_MOD_DEPTH_SCALE)
               (setTankModSpeed
                  (plate_tank_mod_speed g * PLATE_TANK_MOD_SPEED_SCALE)
                  (setTankFilterHighCutFrequency (plate_tank_damp_high g)
                     (setTankDiffusion (plate_tank_diffusion g)
                        (setDecay (plate_decay g)
                           (setInputFilterHighCutoffPitch
                              (plate_input_damp_high g)
                              (setPreDelay (plate_pre_delay g) (verb g)))))))) in
        Some
          (mkGlobals (SavedSettings g) v (mono_stereo_mode g)
             (bypass_reverb local_settings) (bypass_tremolo local_settings)
             (bypass_delay_ local_settings)
             (plate_pre_delay g) (plate_decay g) (plate_tank_diffusion g)
             (plate_input_damp_high g) (plate_tank_damp_high g)
             (plate_tank_mod_speed g) (plate_tank_mod_depth g)
             (plate_tank_mod_shape g) (reverb_dry_scale_factor g)
             (reverb_reverse_scale_factor g))
  end.

End Globals.

Arguments Globals L : clear implicits.

End CaptureFile.

(** ** A bench instance of the DSP interface

    Executable stand-ins for the linked components, used by the concrete
    examples.  The delay line follows DaisySP's ring buffer and the
    oscillator is a phase accumulator; the filters and the reverb engines
    are reduced to the simplest object of the right shape. *)

Module Bench.

(** Modelled from the spec: the tremolo LFO is a phase accumulator that
    advances by [freq / sample rate] on each [Process] call; the waveform
    shapes here are rational stand-ins for the synthesised ones. *)
Record Osc := mkOsc {
  phase : float;
  freq : float;
  amp : float;
  waveform : Waveform
}.

Definition wrap (p : float) : float := p - inject_Z (Qfloor p).

Definition shape (w : Waveform) (p : float) : float :=
  match w with
  | WAVE_SIN =>
      if flt p (1 # 2) then 16 * p * ((1 # 2) - p)
      else - (16 * (p - (1 # 2)) * (1 - p))
  | WAVE_SQUARE_ROUNDED => if flt p (1 # 2) then 1 else -1
  end.

Definition Osc_Process (o : Osc) : float * Osc :=
  (amp o * shape (waveform o) (phase o),
   mkOsc (wrap (phase o + freq o / SAMPLE_RATE)) (freq o) (amp o) (waveform o)).

(** DaisySP's [DelayLine<float, max_size>]: a ring buffer written at
    [write_ptr_], which then steps backwards, and read [delay_] cells
    behind it with linear interpolation.  [max_size] is the length of
    [line_]. *)
Record Line := mkLine {
  line_ : list float;
  write_ptr_ : nat;
  delay_ : nat;
  frac_ : float
}.

Definition Line_SetDelay (delay : float) (l : Line) : Line :=
  let max_size := length (line_ l) in
  let int_delay := to_int delay in
  mkLine (line_ l) (write_ptr_ l)
    (if (int_delay <? Z.of_nat max_size)%Z && (0 <=? int_delay)%Z
     then Z.to_nat int_delay else (max_size - 1)%nat)
    (delay - inject_Z int_delay).

Definition Line_Read (l : Line) : float :=
  let max_size := length (line_ l) in
  let a := nth ((write_ptr_ l + delay_ l) mod max_size) (line_ l) 0 in
  let b := nth ((write_ptr_ l + delay_ l + 1) mod max_size) (line_ l) 0 in
  a + (b - a) * frac_ l.

Fixpoint store (i : nat) (x : float) (l : list float) : list float :=
  match l, i with
  | [], _ => []
  | _ :: t, O => x :: t
  | h :: t, S j => h :: store j x t
  end.

Definition Line_Write (sample : float) (l : Line) : Line :=
  let max_size := length (line_ l) in
  mkLine (store (write_ptr_ l) sample (line_ l))
    ((write_ptr_ l + max_size - 1) mod max_size)%nat
    (delay_ l) (frac_ l).

(** One-pole smoothers for the two filter classes that are one-pole. *)
Definition OnePole_LowPass (y x : float) : float * float :=
  let y' := y + (1 # 2) * (x - y) in (y', y').

Definition OnePole_HighPass (y x : float) : float * float :=
  let y' := y + (1 # 2) * (x - y) in (x - y', y').

(** A reverb engine reduced to its parameter set and last output frame. *)
Record Plate := mkPlate {
  p_decay : float;
  p_diffusion : float;
  p_input_cut : float;
  p_tank_cut : float;
  p_mod_speed : float;
  p_mod_depth : float;
  p_mod_shape : float;
  p_pre_delay : float;
  out_left : float;
  out_right : float
}.

Definition Plate_process (l r : float) (v : Plate) : Plate :=
  mkPlate (p_decay v) (p_diffusion v) (p_input_cut v) (p_tank_cut v)
    (p_mod_speed v) (p_mod_depth v) (p_mod_shape v) (p_pre_delay v)
    (l * p_decay v) (r * p_decay v).

Definition lib : DspLib := {|
  FlickOscillator := Osc;
  osc_SetFreq f o := mkOsc (phase o) f (amp o) (waveform o);
  osc_SetAmp a o := mkOsc (phase o) (freq o) a (waveform o);
  osc_SetWaveform w o := mkOsc (phase o) (freq o) (amp o) w;
  osc_Process := Osc_Process;
  PeakingEQ := unit;
  PeakingEQ_Process f x := (x, f);
  LowPassFilter := float;
  LowPassFilter_Process := OnePole_LowPass;
  HighPassFilter := float;
  HighPassFilter_Process := OnePole_HighPass;
  LowShelf := unit;
  LowShelf_Process f x := (x, f);
  DelayLine := Line;
  DelayLine_SetDelay := Line_SetDelay;
  DelayLine_Read := Line_Read;
  DelayLine_Write := Line_Write;
  Dattorro := Plate;
  setDecay x v :=
    mkPlate x (p_diffusion v) (p_input_cut v) (p_tank_cut v) (p_mod_speed v)
      (p_mod_depth v) (p_mod_shape v) (p_pre_delay v) (out_left v) (out_right v);
  setTankDiffusion x v :=
    mkPlate (p_decay v) x (p_input_cut v) (p_tank_cut v) (p_mod_speed v)
      (p_mod_depth v) (p_mod_shape v) (p_pre_delay v) (out_left v) (out_right v);
  setInputFilterHighCutoffPitch x v :=
    mkPlate (p_decay v) (p_diffusion v) x (p_tank_cut v) (p_mod_speed v)
      (p_mod_depth v) (p_mod_shape v) (p_pre_delay v) (out_left v) (out_right v);
  setTankFilterHighCutFrequency x v :=
    mkPlate (p_decay v) (p_diffusion v) (p_input_cut v) x (p_mod_speed v)
      (p_mod_depth v) (p_mod_shape v) (p_pre_delay v) (out_left v) (out_right v);
  setTankModSpeed x v :=
    mkPlate (p_decay v) (p_diffusion v) (p_input_cut v) (p_tank_cut v) x
      (p_mod_depth v) (p_mod_shape v) (p_pre_delay v) (out_left v) (out_right v);
  setTankModDepth x v :=
    mkPlate (p_decay v) (p_diffusion v) (p_input_cut v) (p_tank_cut v)
      (p_mod_speed v) x (p_mod_shape v) (p_pre_delay v) (out_left v) (out_right v);
  setTankModShape x v :=
    mkPlate (p_decay v) (p_diffusion v) (p_input_cut v) (p_tank_cut v)
      (p_mod_speed v) (p_mod_depth v) x (p_pre_delay v) (out_left v) (out_right v);
  setPreDelay x v :=
    mkPlate (p_decay v) (p_diffusion v) (p_input_cut v) (p_tank_cut v)
      (p_mod_speed v) (p_mod_depth v) (p_mod_shape v) x (out_left v) (out_right v);
  Dattorro_clear v :=
    mkPlate (p_decay v) (p_diffusion v) (p_input_cut v) (p_tank_cut v)
      (p_mod_speed v) (p_mod_depth v) (p_mod_shape v) (p_pre_delay v) 0 0;
  Dattorro_process := Plate_process;
  getLeftOutput := out_left;
  getRightOutput := out_right;
  clearPopCancelValue _ := 1;
  HallReverb := unit;
  HallReverb_ProcessSample l r e := ((l, r), e);
  SpringReverb := unit;
  SpringReverb_ProcessSample l r e := ((l, r), e);
  Parameter_LOGARITHMIC pmin pmax x := pmin + x * (pmax - pmin)
|}.

Definition line0 : Line := mkLine [0; 0; 0; 0; 0; 0; 0; 0] 0 1 0.
Definition delay0 : Delay lib := @mkDelay lib line0 0 0 0.
Definition osc0 : Osc := mkOsc 0 1 0 WAVE_SIN.
Definition plate0 : Plate := mkPlate 0 0 0 0 0 0 0 0 0 0.

(** Flash as it leaves the factory: no valid image. *)
Definition blank_flash : StorageState * Settings :=
  (STATE_UNKNOWN, mkSettings 0 0 0 0 0 0 0 0 0 0 0 false false false).

Definition storage0 (flash : StorageState * Settings) : PersistentStorage :=
  mkStorage (snd blank_flash) (snd blank_flash) STATE_UNKNOWN flash.

(** Memory before the initialisers have run. *)
Definition blank (flash : StorageState * Settings) : Pedal lib :=
  let k := KnobTakeover_new in
  let d := SwitchChangeDetector_new in
  @mkPedal lib (storage0 flash) osc0 0 plate0 tt tt REVERB_PLATE
    PEDAL_MODE_NORMAL 0%Z delay0 delay0 0%Z 0 0 false false false false
    0%Z 0%Z 0 false 0 false k k k k k k k k d d d 0 0%Z
    0 0 0 0 0 0 0 0 tt tt tt tt tt tt tt tt tt tt
    0 0 0 0 0 0 0 0 0 0 0 0 0 0 0 0 false 0 0 0%Z false 0%Z false 0%Z.

(** The pedal after start-up on the given flash image. *)
Definition power_on (flash : StorageState * Settings) : option (Pedal lib) :=
  main_startup 2 (blank flash).

(** The pedal as it comes up from a factory-fresh flash. *)
Definition ready : Pedal lib :=
  Eval vm_compute in
    match power_on blank_flash with
    | Some s => s
    | None => blank blank_flash
    end.

(** [ready] with a sample held in both delay lines and feedback at one
    half; both effects still bypassed. *)
Definition echoing : Pedal lib :=
  Eval vm_compute in
    let d := @mkDelay lib (mkLine [0; 1; 0; 0] 0 1 0) 1 1 (1 # 2) in
    set_delayR d (set_delayL d ready).

(** [ready] with the LFO a quarter of the way through its cycle, running
    at 4800 Hz (a tenth of a cycle per sample); tremolo still bypassed. *)
Definition humming : Pedal lib :=
  Eval vm_compute in
    @set_osc lib (mkOsc (1 # 4) 4800 (1 # 2) WAVE_SIN) ready.

(** [ready] holding a record written under schema version 4. *)
Definition outdated : Pedal lib :=
  Eval vm_compute in
    let r := mkSettings 4 (9 # 10) (1 # 2) 5 6 (1 # 2) (1 # 2) (1 # 2) (1 # 10)
               2 2 false false false in
    set_SavedSettings (mkStorage r defaultSettings STATE_USER (STATE_USER, r))
      ready.

(** [ready] holding a current-version record whose mono-stereo index is 7
    and whose makeup-gain tier is 9. *)
Definition stray : Pedal lib :=
  Eval vm_compute in
    let r := mkSettings 5 (9 # 10) (1 # 2) 5 6 (1 # 2) (1 # 2) (1 # 2) (1 # 10)
               7 9 false true false in
    set_SavedSettings (mkStorage r defaultSettings STATE_USER (STATE_USER, r))
      ready.

(** Readings with every knob at [x] and every switch at [p], at time [t]. *)
Definition readings (x : float) (p : ToggleswitchPosition) (t : Z) : Hw :=
  mkHw (fun _ => x) (fun _ => p) t false false 6000 true.

(** The globals of the capture-based control file as its initialisers
    leave them, holding a version-4 record whose mono-stereo index is 7. *)
Definition stray4 : CaptureFile.Globals lib :=
  let r := CaptureFile.mkSettings 4 (9 # 10) (1 # 2) 5 6 (1 # 2) (1 # 2)
             (1 # 2) (1 # 10) 7 false true false in
  let d := CaptureFile.mkSettings 4 (8 # 10) (85 # 100) (725 # 100)
             (725 # 100) (1 # 10) (1 # 10) (25 # 100) 0 MS_MODE_MIMO
             true true true in
  @CaptureFile.mkGlobals lib
    (CaptureFile.mkStorage r d STATE_USER (STATE_USER, r)) plate0
    MS_MODE_MIMO true true true 0 (8 # 10) (85 # 100) (725 # 100) (725 # 100)
    (1 # 10) (1 # 10) (25 # 100) 1 1.

End Bench.

(** ** The vocabulary of the statements

    [tap_session] runs successive audio callbacks in which the only
    footswitch activity is a tap (a normal press of footswitch 2): each
    element gives the readings, whether a tap arrives, and the block. *)

Fixpoint tap_session {L : DspLib}
  (calls : list (Hw * bool * list (float * float))) (s : Pedal L) : Pedal L :=
  match calls with
  | [] => s
  | (hw, tap, input) :: rest =>
      let events := if tap then [(NormalPress, FOOTSWITCH_2)] else [] in
      tap_session rest (snd (AudioCallback hw events input s))
  end.

(** The delay time and the tremolo frequency that a tap interval of [I]
    milliseconds asks for, in the words of the specification:
    [clamp (I / 1000 * sampleRate, 20 ms in samples, 4 s in samples)] and
    [clamp (1000 / I, 0.2, 16.0)], at 48000 samples per second. *)
Definition spec_samples_of_ms (t : Z) : float := (inject_Z t / 1000) * 48000.

Definition spec_tap_delay_samples (I : Z) : float :=
  fclamp ((inject_Z I / 1000) * 48000)
    (spec_samples_of_ms 20) (spec_samples_of_ms 4000).

Definition spec_tap_tremolo_freq (I : Z) : float :=
  fclamp (1000 / inject_Z I) (2 # 10) 16.

(** The delay target the callback derives from a master delay time. *)
Definition final_delay_time (hw : Hw) (masterDelaySamples : float) : float :=
  let m : float :=
    match kDelaySubdivisionMap (GetToggleswitchPosition hw TOGGLESWITCH_3) with
    | DELAY_SUBDIV_DOTTED_EIGHTH => 75 # 100
    | DELAY_SUBDIV_QUARTER_TRIPLET => 2 / 3
    | DELAY_SUBDIV_NORMAL => 1
    end in
  fclamp (masterDelaySamples * m) TAP_TEMPO_SAMPLES_MIN (inject_Z MAX_DELAY).

(** What it means for the working variables to hold a settings record. *)
Definition loaded_reverb {L : DspLib} (s : Pedal L) (r : Settings) : Prop :=
  plate_decay s = decay r /\
  plate_tank_diffusion s = diffusion r /\
  plate_input_damp_high s = input_cutoff_freq r /\
  plate_tank_damp_high s = tank_cutoff_freq r /\
  plate_tank_mod_speed s = tank_mod_speed r /\
  plate_tank_mod_depth s = tank_mod_depth r /\
  plate_tank_mod_shape s = tank_mod_shape r /\
  plate_pre_delay s = pre_delay r.

Definition loaded_bypass {L : DspLib} (s : Pedal L) (r : Settings) : Prop :=
  bypass_verb s = bypass_reverb r /\
  bypass_delay s = bypass_delay_ r /\
  bypass_trem s = bypass_tremolo r.

Definition loaded_modes {L : DspLib} (s : Pedal L) (r : Settings) : Prop :=
  mono_stereo_mode s = mono_stereo_mode_ r /\
  current_makeup_gain s = makeup_gain_mode r.

Definition loaded_exactly {L : DspLib} (s : Pedal L) (r : Settings) : Prop :=
  loaded_reverb s r /\ loaded_bypass s r /\ loaded_modes s r.

Definition modes_in_range (r : Settings) : Prop :=
  (MS_MODE_MIMO <= mono_stereo_mode_ r <= MS_MODE_SISO)%Z /\
  (MAKEUP_GAIN_NONE <= makeup_gain_mode r <= MAKEUP_GAIN_HEAVY)%Z.

(** The two validated fields, as [loadSettings] leaves them. *)
Definition validated_mono_stereo (r : Settings) : MonoStereoMode :=
  if (mono_stereo_mode_ r <? MS_MODE_MIMO)%Z || (mono_stereo_mode_ r >? MS_MODE_SISO)%Z
  then MS_MODE_MIMO else mono_stereo_mode_ r.

Definition validated_makeup_gain (r : Settings) : TremDelMakeUpGain :=
  if (makeup_gain_mode r <? MAKEUP_GAIN_NONE)%Z || (makeup_gain_mode r >? MAKEUP_GAIN_HEAVY)%Z
  then MAKEUP_GAIN_NORMAL else makeup_gain_mode r.

(** A takeover object holds a fresh capture of the current readings. *)
Definition knob_captured (hw : Hw) (k : KnobTakeover) : Prop :=
  forall kn, knob k = Some kn ->
    entry_value k = knob_Value hw kn /\ taken_over k = false.



Definition tap_tempo_ready {L : DspLib} (hw : Hw) (s0 s : Pedal L) : Prop :=
  tap_tempo_active s = true /\
  tap_tempo_last_tap_time s = GetNow hw /\
  tap_tempo_controls_delay s
    = (negb (bypass_delay s0) || bypass_trem s0) /\
  tap_tempo_controls_tremolo s
    = (negb (bypass_trem s0) || bypass_delay s0) /\
  knob_captured hw (tap_tempo_delay_knob_takeover s) /\
  knob_captured hw (tap_tempo_tremolo_knob_takeover s).

(** The variables a tap tempo session with the tremolo bypassed rests on. *)
Definition tap_view {L : DspLib} (s : Pedal L) :=
  (pedal_mode s, tap_tempo_controls_tremolo s, bypass_trem s, bypass_delay s,
   osc s).

(** The variables the sample loop only reads: everything except the DSP
    objects, the two delays, the oscillator with [trem_val], and the four
    input/output frame variables. *)
Definition control_state {L : DspLib} (s : Pedal L) :=
  (SavedSettings s, dc_offset s, current_reverb_type s, pedal_mode s,
   mono_stereo_mode s, delay_drywet s, led_left s, led_right s,
   (bypass_verb s, bypass_trem s, bypass_delay s),
   (tap_tempo_active s, tap_tempo_last_tap_time s, tap_tempo_interval_ms s,
    tap_tempo_delay_samples s, tap_tempo_controls_delay s,
    tap_tempo_tremolo_freq_hz s, tap_tempo_controls_tremolo s,
    tap_tempo_delay_knob_takeover s, tap_tempo_tremolo_knob_takeover s),
   (reverb_edit_wet_amount_knob s, reverb_edit_pre_delay_knob s,
    reverb_edit_decay_knob s, reverb_edit_diffusion_knob s,
    reverb_edit_input_cut_knob s, reverb_edit_tank_cut_knob s,
    reverb_edit_mod_speed_switch s, reverb_edit_mod_depth_switch s,
    reverb_edit_mod_shape_switch s),
   master_delay_time_samples s, current_makeup_gain s,
   (plate_pre_delay s, plate_dry s, plate_wet s, plate_decay s,
    plate_tank_diffusion s, plate_input_damp_high s, plate_tank_damp_high s,
    plate_tank_mod_speed s, plate_tank_mod_depth s, plate_tank_mod_shape s),
   reverb_dry_scale_factor s, reverb_reverse_scale_factor s,
   trigger_settings_save s,
   (depth s, edit_count s, edit_led_state s, mono_stereo_edit_count s,
    mono_stereo_led_state s, led_count s)).

(** ** Proof automation *)

(** Closed goals, conjunctions of them included, are decided by
    evaluation. *)
Ltac qeval :=
  cbv zeta; repeat apply conj; vm_compute;
  first [ reflexivity | discriminate | tauto ].

(** Case analysis on every test and pair the goal still scrutinises,
    innermost first. *)
Ltac cases :=
  repeat match goal with
         | |- context [match ?m with _ => _ end] =>
             lazymatch m with
             | context [match _ with _ => _ end] => fail
             | _ => destruct m
             end
         end.

(** What a stage of the loop leaves in place. *)
Definition keeps {L : DspLib} {A B X : Type} (P : Pedal L -> A)
  (stage : X -> Pedal L -> B * Pedal L) : Prop :=
  forall x s y s', stage x s = (y, s') -> P s' = P s.

Ltac stage_keeps :=
  let E := fresh "E" in
  intros ? ? ? ? E;
  match type of E with
  | ?lhs = (_, ?s') => replace s' with (snd lhs) by (rewrite E; reflexivity)
  end;
  clear E.

(** * Theorems *)

(** ** Comparisons and clamping *)

Lemma fge_true a b : fge a b = true <-> (b <= a)%Q.
Proof. unfold fge. apply Qle_bool_iff. Qed.

Lemma fge_false a b : fge a b = false <-> (a < b)%Q.
Proof.
  unfold fge. split; intro H.
  - destruct (Qlt_le_dec a b) as [Hlt | Hle]; [exact Hlt |].
    apply Qle_bool_iff in Hle. congruence.
  - destruct (Qle_bool b a) eqn:E; [| reflexivity].
    apply Qle_bool_iff in E. lra.
Qed.

Lemma fgt_true a b : fgt a b = true <-> (b < a)%Q.
Proof. unfold fgt. rewrite negb_true_iff. apply (fge_false b a). Qed.

Lemma fgt_false a b : fgt a b = false <-> (a <= b)%Q.
Proof. unfold fgt. rewrite negb_false_iff. apply Qle_bool_iff. Qed.

Lemma flt_true a b : flt a b = true <-> (a < b)%Q.
Proof. apply (fgt_true b a). Qed.

Lemma flt_false a b : flt a b = false <-> (b <= a)%Q.
Proof. apply (fgt_false b a). Qed.

Lemma fclamp_bounds x lo hi :
  (lo <= hi)%Q -> (lo <= fclamp x lo hi)%Q /\ (fclamp x lo hi <= hi)%Q.
Proof.
  intro H. unfold fclamp, fmin, fmax.
  destruct (fgt x lo) eqn:E1.
  - apply fgt_true in E1.
    destruct (flt x hi) eqn:E2.
    + apply flt_true in E2. lra.
    + apply flt_false in E2. lra.
  - apply fgt_false in E1.
    destruct (flt lo hi) eqn:E2.
    + apply flt_true in E2. lra.
    + apply flt_false in E2. lra.
Qed.

Lemma fclamp_inside x lo hi :
  (lo <= x)%Q -> (x <= hi)%Q -> (fclamp x lo hi == x)%Q.
Proof.
  intros H1 H2. unfold fclamp, fmin, fmax.
  destruct (fgt x lo) eqn:E1.
  - destruct (flt x hi) eqn:E2; [reflexivity |].
    apply flt_false in E2. lra.
  - apply fgt_false in E1.
    destruct (flt lo hi) eqn:E2.
    + lra.
    + apply flt_false in E2. lra.
Qed.

(** ** Soft takeover *)

Section SoftTakeover.

Lemma KnobCapture_run_active (k : KnobCapture.t) xs :
  KnobCapture.is_active_ k = true -> KnobCapture.run k xs = map snd xs.
Proof.
  revert k. induction xs as [| [c p] xs IH]; intros k Hk; [reflexivity |].
  simpl. unfold KnobCapture.Process. rewrite Hk. simpl.
  f_equal. apply IH. exact Hk.
Qed.

Lemma KnobCapture_run_frozen (k : KnobCapture.t) xs :
  KnobCapture.is_active_ k = false ->
  (forall x, In x xs ->
     (Qabs (fst x - KnobCapture.baseline_control_ k) < KnobCapture.threshold_ k)%Q) ->
  KnobCapture.run k xs = map (fun _ => KnobCapture.frozen_value_ k) xs.
Proof.
  intros Hk. induction xs as [| [c p] xs IH]; intros Hlt; [reflexivity |].
  simpl. unfold KnobCapture.Process. rewrite Hk.
  assert (E : fge (fabs (c - KnobCapture.baseline_control_ k))
                  (KnobCapture.threshold_ k) = false).
  { apply fge_false. apply (Hlt (c, p)). left. reflexivity. }
  rewrite E. simpl. f_equal. apply IH.
  intros x Hx. apply Hlt. right. exact Hx.
Qed.

Lemma KnobCapture_run_release (k : KnobCapture.t) pre c p post :
  KnobCapture.is_active_ k = false ->
  (forall x, In x pre ->
     (Qabs (fst x - KnobCapture.baseline_control_ k) < KnobCapture.threshold_ k)%Q) ->
  (KnobCapture.threshold_ k <= Qabs (c - KnobCapture.baseline_control_ k))%Q ->
  KnobCapture.run k (pre ++ (c, p) :: post)
  = map (fun _ => KnobCapture.frozen_value_ k) pre ++ p :: map snd post.
Proof.
  intros Hk. induction pre as [| [c0 p0] pre IH]; intros Hlt Hge.
  - simpl. unfold KnobCapture.Process. rewrite Hk.
    assert (E : fge (fabs (c - KnobCapture.baseline_control_ k))
                    (KnobCapture.threshold_ k) = true).
    { apply fge_true. exact Hge. }
    rewrite E. simpl. f_equal.
    apply KnobCapture_run_active. reflexivity.
  - simpl. unfold KnobCapture.Process. rewrite Hk.
    assert (E : fge (fabs (c0 - KnobCapture.baseline_control_ k))
                    (KnobCapture.threshold_ k) = false).
    { apply fge_false. apply (Hlt (c0, p0)). left. reflexivity. }
    rewrite E. simpl. f_equal. apply IH; [| exact Hge].
    intros x Hx. apply Hlt. right. exact Hx.
Qed.

Lemma KnobCaptureRaw_run_through (k : KnobCaptureRaw.t) xs :
  KnobCaptureRaw.is_frozen_ k = false -> KnobCaptureRaw.run k xs = xs.
Proof.
  revert k. induction xs as [| c xs IH]; intros k Hk; [reflexivity |].
  simpl. unfold KnobCaptureRaw.Process. rewrite Hk. simpl.
  f_equal. apply IH. exact Hk.
Qed.

Lemma KnobCaptureRaw_run_release (k : KnobCaptureRaw.t) pre c post :
  KnobCaptureRaw.is_frozen_ k = true ->
  (forall x, In x pre ->
     (Qabs (x - KnobCaptureRaw.frozen_knob_ k) < KnobCaptureRaw.threshold_ k)%Q) ->
  (KnobCaptureRaw.threshold_ k <= Qabs (c - KnobCaptureRaw.frozen_knob_ k))%Q ->
  KnobCaptureRaw.run k (pre ++ c :: post)
  = map (fun _ => KnobCaptureRaw.frozen_knob_ k) pre ++ c :: post.
Proof.
  intros Hk. induction pre as [| c0 pre IH]; intros Hlt Hge.
  - simpl. unfold KnobCaptureRaw.Process. rewrite Hk. cbn [negb].
    assert (E : fge (fabs (c - KnobCaptureRaw.frozen_knob_ k))
                    (KnobCaptureRaw.threshold_ k) = true).
    { apply fge_true. exact Hge. }
    rewrite E. simpl. f_equal.
    apply KnobCaptureRaw_run_through. reflexivity.
  - simpl. unfold KnobCaptureRaw.Process. rewrite Hk. cbn [negb].
    assert (E : fge (fabs (c0 - KnobCaptureRaw.frozen_knob_ k))
                    (KnobCaptureRaw.threshold_ k) = false).
    { apply fge_false. apply (Hlt c0). left. reflexivity. }
    rewrite E. simpl. f_equal. apply IH; [| exact Hge].
    intros x Hx. apply Hlt. right. exact Hx.
Qed.

Lemma run_checkTakeover_taken T (k : KnobTakeover) kn hws :
  knob k = Some kn -> taken_over k = true ->
  run_checkTakeover T k hws = map (fun _ => true) hws.
Proof.
  intros Hkn Ht. induction hws as [| hw hws IH]; [reflexivity |].
  simpl. unfold checkTakeover_with. rewrite Hkn, Ht. simpl.
  f_equal. exact IH.
Qed.

Lemma run_checkTakeover_release T (k : KnobTakeover) kn pre hw post :
  knob k = Some kn -> taken_over k = false ->
  (forall h, In h pre -> (Qabs (knob_Value h kn - entry_value k) <= T)%Q) ->
  (T < Qabs (knob_Value hw kn - entry_value k))%Q ->
  run_checkTakeover T k (pre ++ hw :: post)
  = map (fun _ => false) pre ++ true :: map (fun _ => true) post.
Proof.
  intros Hkn Ht. induction pre as [| h pre IH]; intros Hle Hgt.
  - simpl. unfold checkTakeover_with. rewrite Hkn, Ht. cbn [negb].
    assert (E : fgt (fabs (knob_Value hw kn - entry_value k)) T = true).
    { apply fgt_true. exact Hgt. }
    rewrite E. f_equal.
    apply run_checkTakeover_taken with (kn := kn); reflexivity.
  - simpl. unfold checkTakeover_with. rewrite Hkn, Ht. cbn [negb].
    assert (E : fgt (fabs (knob_Value h kn - entry_value k)) T = false).
    { apply fgt_false. apply Hle. left. reflexivity. }
    rewrite E. f_equal. apply IH; [| exact Hgt].
    intros h' Hh'. apply Hle. right. exact Hh'.
Qed.

Lemma run_checkTakeover_held T (k : KnobTakeover) kn hws :
  knob k = Some kn -> taken_over k = false ->
  (forall h, In h hws -> (Qabs (knob_Value h kn - entry_value k) <= T)%Q) ->
  run_checkTakeover T k hws = map (fun _ => false) hws.
Proof.
  intros Hkn Ht. induction hws as [| h hws IH]; intros Hle; [reflexivity |].
  simpl. unfold checkTakeover_with. rewrite Hkn, Ht. cbn [negb].
  assert (E : fgt (fabs (knob_Value h kn - entry_value k)) T = false).
  { apply fgt_false. apply Hle. left. reflexivity. }
  rewrite E. f_equal. apply IH.
  intros h' Hh'. apply Hle. right. exact Hh'.
Qed.

(** C1 (as amended).  After a capture the parameter stays frozen on every
    call while the raw control has not moved past the threshold, and from
    the first call where it has the object passes the live value through,
    whatever the control does afterwards.  For [KnobCapture] the frozen
    phase lasts while the movement is below [T] and ends at the first
    movement of at least [T]; [Process] returns the frozen parameter value
    (first header) or the captured knob reading, the frozen parameter
    value being served by [GetFrozenValue] (second header).  For
    [KnobTakeover] the comparison is strict: [checkTakeover] answers
    [false] while the movement is at most [T] and [true] from the first
    movement above [T]. *)
Theorem soft_takeover_release :
  (forall (k0 : KnobCapture.t) base fv pre c p post,
      let k := KnobCapture.Capture base fv k0 in
      let T := KnobCapture.threshold_ k0 in
      (forall x, In x pre -> (Qabs (fst x - base) < T)%Q) ->
      (KnobCapture.run k pre = map (fun _ => fv) pre) /\
      ((T <= Qabs (c - base))%Q ->
       KnobCapture.run k (pre ++ (c, p) :: post)
       = map (fun _ => fv) pre ++ p :: map snd post)) /\
  (forall (k0 : KnobCaptureRaw.t) base fv pre c post,
      let k := KnobCaptureRaw.Capture base fv k0 in
      let T := KnobCaptureRaw.threshold_ k0 in
      (forall x, In x pre -> (Qabs (x - base) < T)%Q) ->
      (T <= Qabs (c - base))%Q ->
      KnobCaptureRaw.GetFrozenValue k = fv /\
      KnobCaptureRaw.run k (pre ++ c :: post)
      = map (fun _ => base) pre ++ c :: post) /\
  (forall (k0 : KnobTakeover) kn hw0 T pre hw post,
      knob k0 = Some kn ->
      let k := KnobTakeover_capture hw0 k0 in
      let base := knob_Value hw0 kn in
      (forall h, In h pre -> (Qabs (knob_Value h kn - base) <= T)%Q) ->
      (run_checkTakeover T k pre = map (fun _ => false) pre) /\
      ((T < Qabs (knob_Value hw kn - base))%Q ->
       run_checkTakeover T k (pre ++ hw :: post)
       = map (fun _ => false) pre ++ true :: map (fun _ => true) post)).
Proof.
  split; [| split].
  - intros k0 base fv pre c p post k T Hlt. split.
    + apply (KnobCapture_run_frozen k pre); auto.
    + intro Hge. apply KnobCapture_run_release; auto.
  - intros k0 base fv pre c post k T Hlt Hge. split; [reflexivity |].
    apply KnobCaptureRaw_run_release; auto.
  - intros k0 kn hw0 T pre hw post Hkn k base Hle.
    assert (Hk : k = mkKnobTakeover (Some kn) base false).
    { unfold k, KnobTakeover_capture. rewrite Hkn. reflexivity. }
    rewrite Hk. split.
    + apply run_checkTakeover_held with (kn := kn); auto.
    + intro Hgt. apply run_checkTakeover_release with (kn := kn); auto.
Qed.

End SoftTakeover.

Lemma soft_takeover_release_witness :
  KnobCapture.run
    (KnobCapture.Capture (1 # 2) 7 (KnobCapture.init (5 # 100)))
    ([(52 # 100, 1); (54 # 100, 2)] ++ (55 # 100, 3) :: [(1 # 2, 4)])
  = map (fun _ => 7) [(52 # 100, 1); (54 # 100, 2)] ++ 3 :: map snd [(1 # 2, 4)].
Proof.
  apply (proj1 soft_takeover_release).
  - intros x [E | [E | []]]; rewrite <- E; qeval.
  - qeval.
Defined.

(** C1, counterexamples.  [KnobTakeover]: captured at 0, read at 0.05, the
    movement equals the threshold and the knob has still not taken over.
    [KnobCaptureRaw]: captured at knob 0.8 with parameter value 0.1, a
    frozen [Process] returns 0.8, the baseline, not the frozen value. *)
Lemma soft_takeover_counterexample :
  let hw0 := Bench.readings 0 TOGGLESWITCH_UP 0 in
  let hw1 := Bench.readings (5 # 100) TOGGLESWITCH_UP 0 in
  let k := KnobTakeover_capture hw0 (KnobTakeover_init KNOB_4 KnobTakeover_new) in
  let r := KnobCaptureRaw.Capture (8 # 10) (1 # 10) (KnobCaptureRaw.init (5 # 100)) in
  ((KNOB_TAKEOVER_THRESHOLD <= Qabs (knob_Value hw1 KNOB_4 - entry_value k))%Q /\
   checkTakeover hw1 k = (false, k)) /\
  ((Qabs ((8 # 10) - KnobCaptureRaw.frozen_knob_ r) < KnobCaptureRaw.threshold_ r)%Q /\
   fst (KnobCaptureRaw.Process (8 # 10) r) = 8 # 10 /\
   ~ (fst (KnobCaptureRaw.Process (8 # 10) r) == KnobCaptureRaw.GetFrozenValue r)%Q).
Proof.
  qeval.
Qed.

(** ** Tap tempo *)

Section TapTempo.

Context {L : DspLib}.

Lemma handleTapTempoTap_valid (hw : Hw) (s : Pedal L) :
  let I := uint32 (GetNow hw - tap_tempo_last_tap_time s) in
  let s' := handleTapTempoTap hw s in
  (0 < tap_tempo_last_tap_time s)%Z ->
  (TAP_TEMPO_MIN_INTERVAL_MS <= I <= TAP_TEMPO_MAX_INTERVAL_MS)%Z ->
  tap_tempo_delay_samples s' = spec_tap_delay_samples I /\
  tap_tempo_tremolo_freq_hz s' = spec_tap_tremolo_freq I /\
  tap_tempo_interval_ms s' = I /\
  master_delay_time_samples s' = spec_tap_delay_samples I.
Proof.
  intros I s' Hlast [Hlo Hhi]. unfold s', handleTapTempoTap.
  assert (E1 : (tap_tempo_last_tap_time s >? 0)%Z = true).
  { rewrite Z.gtb_ltb. apply Z.ltb_lt. exact Hlast. }
  rewrite E1. fold I.
  assert (E2 : (I >=? TAP_TEMPO_MIN_INTERVAL_MS)%Z = true).
  { rewrite Z.geb_leb. apply Z.leb_le. exact Hlo. }
  assert (E3 : (I <=? TAP_TEMPO_MAX_INTERVAL_MS)%Z = true).
  { apply Z.leb_le. exact Hhi. }
  rewrite E2, E3. repeat split; reflexivity.
Qed.

Lemma handleTapTempoTap_invalid (hw : Hw) (s : Pedal L) :
  let I := uint32 (GetNow hw - tap_tempo_last_tap_time s) in
  let s' := handleTapTempoTap hw s in
  (I < TAP_TEMPO_MIN_INTERVAL_MS \/ TAP_TEMPO_MAX_INTERVAL_MS < I)%Z ->
  tap_tempo_delay_samples s' = tap_tempo_delay_samples s /\
  tap_tempo_tremolo_freq_hz s' = tap_tempo_tremolo_freq_hz s.
Proof.
  intros I s' Hout. unfold s', handleTapTempoTap. fold I.
  destruct (tap_tempo_last_tap_time s >? 0)%Z; [| split; reflexivity].
  assert (E : (I >=? TAP_TEMPO_MIN_INTERVAL_MS)%Z
              && (I <=? TAP_TEMPO_MAX_INTERVAL_MS)%Z = false).
  { apply andb_false_iff. destruct Hout as [H | H].
    - left. rewrite Z.geb_leb. apply Z.leb_gt. exact H.
    - right. apply Z.leb_gt. exact H. }
  rewrite E. split; reflexivity.
Qed.

(** Within the accepted range the clamps are inactive: the delay time is
    48 samples per millisecond and the frequency is [1000 / I] hertz. *)
Lemma spec_tap_values (I : Z) :
  (TAP_TEMPO_MIN_INTERVAL_MS <= I <= TAP_TEMPO_MAX_INTERVAL_MS)%Z ->
  (spec_tap_delay_samples I == 48 * inject_Z I)%Q /\
  ((I <= 62)%Z -> (spec_tap_tremolo_freq I == 16)%Q) /\
  ((63 <= I)%Z -> (spec_tap_tremolo_freq I == 1000 / inject_Z I)%Q).
Proof.
  unfold TAP_TEMPO_MIN_INTERVAL_MS, TAP_TEMPO_MAX_INTERVAL_MS.
  intros [Hlo Hhi].
  assert (Q1 : (20 <= inject_Z I)%Q).
  { change 20%Q with (inject_Z 20). rewrite <- Zle_Qle. exact Hlo. }
  assert (Q2 : (inject_Z I <= 4000)%Q).
  { change 4000%Q with (inject_Z 4000). rewrite <- Zle_Qle. exact Hhi. }
  split; [| split].
  - unfold spec_tap_delay_samples.
    rewrite fclamp_inside.
    + field.
    + unfold spec_samples_of_ms.
      setoid_replace (inject_Z 20 / 1000 * 48000)%Q with 960%Q by reflexivity.
      setoid_replace (inject_Z I / 1000 * 48000)%Q with (48 * inject_Z I)%Q
        by field.
      lra.
    + unfold spec_samples_of_ms.
      setoid_replace (inject_Z 4000 / 1000 * 48000)%Q with 192000%Q by reflexivity.
      setoid_replace (inject_Z I / 1000 * 48000)%Q with (48 * inject_Z I)%Q
        by field.
      lra.
  - intro H62.
    assert (Q3 : (inject_Z I <= 62)%Q).
    { change 62%Q with (inject_Z 62). rewrite <- Zle_Qle. exact H62. }
    assert (Hd : (16 < 1000 / inject_Z I)%Q).
    { apply Qlt_shift_div_l; lra. }
    unfold spec_tap_tremolo_freq, fclamp, fmax, fmin.
    assert (E1 : fgt (1000 / inject_Z I) (2 # 10) = true).
    { apply fgt_true. lra. }
    rewrite E1.
    assert (E2 : flt (1000 / inject_Z I) 16 = false).
    { apply flt_false. lra. }
    rewrite E2. reflexivity.
  - intro H63.
    assert (Q3 : (63 <= inject_Z I)%Q).
    { change 63%Q with (inject_Z 63). rewrite <- Zle_Qle. exact H63. }
    unfold spec_tap_tremolo_freq. apply fclamp_inside.
    + apply Qle_shift_div_l; lra.
    + apply Qle_shift_div_r; lra.
Qed.

Lemma handleTapTempoTap_recorded (hw : Hw) (s : Pedal L) :
  tap_tempo_last_tap_time (handleTapTempoTap hw s) = GetNow hw.
Proof. reflexivity. Qed.

Lemma handleTapTempoTap_no_previous (hw : Hw) (s : Pedal L) :
  let s' := handleTapTempoTap hw s in
  (tap_tempo_last_tap_time s <= 0)%Z ->
  tap_tempo_delay_samples s' = tap_tempo_delay_samples s /\
  tap_tempo_tremolo_freq_hz s' = tap_tempo_tremolo_freq_hz s.
Proof.
  intros s' Hz. unfold s', handleTapTempoTap.
  assert (E : (tap_tempo_last_tap_time s >? 0)%Z = false).
  { rewrite Z.gtb_ltb. apply Z.ltb_ge. exact Hz. }
  rewrite E. split; reflexivity.
Qed.

(** C2.  Two consecutive taps.  Each tap records its time.  When the
    time recorded by the first is not zero and the interval [I] from it
    to the second, in milliseconds, lies within 20 to 4000, the second
    tap sets the delay time to
    [clamp (I / 1000 * 48000, 20 ms in samples, 4 s in samples)] and the
    tremolo frequency to [clamp (1000 / I, 0.2, 16.0)]; when [I] is below
    20 or above 4000 both stored values stay as the first tap left them.
    A first tap recorded at time zero is taken for no tap at all: the
    second tap then changes neither value, whatever the interval. *)
Theorem tap_tempo_conversion (hw1 hw2 : Hw) (s : Pedal L) :
  let s1 := handleTapTempoTap hw1 s in
  let s2 := handleTapTempoTap hw2 s1 in
  let I := uint32 (GetNow hw2 - GetNow hw1) in
  (tap_tempo_last_tap_time s1 = GetNow hw1 /\
   tap_tempo_last_tap_time s2 = GetNow hw2) /\
  ((0 < GetNow hw1)%Z ->
   (20 <= I <= 4000)%Z ->
   tap_tempo_delay_samples s2 = spec_tap_delay_samples I /\
   tap_tempo_tremolo_freq_hz s2 = spec_tap_tremolo_freq I) /\
  ((I < 20 \/ 4000 < I)%Z ->
   tap_tempo_delay_samples s2 = tap_tempo_delay_samples s1 /\
   tap_tempo_tremolo_freq_hz s2 = tap_tempo_tremolo_freq_hz s1) /\
  (GetNow hw1 = 0%Z ->
   tap_tempo_delay_samples s2 = tap_tempo_delay_samples s1 /\
   tap_tempo_tremolo_freq_hz s2 = tap_tempo_tremolo_freq_hz s1) /\
  (TAP_TEMPO_SAMPLES_MIN == 960 /\ TAP_TEMPO_SAMPLES_MAX == 192000)%Q.
Proof.
  intros s1 s2 I.
  assert (R1 : tap_tempo_last_tap_time s1 = GetNow hw1)
    by apply handleTapTempoTap_recorded.
  split; [split; [exact R1 | apply handleTapTempoTap_recorded] |].
  split; [| split; [| split]].
  - intros Hlast HI.
    destruct (handleTapTempoTap_valid hw2 s1) as (H1 & H2 & _).
    + rewrite R1. exact Hlast.
    + rewrite R1. exact HI.
    + rewrite R1 in H1, H2. split; assumption.
  - intro Hout.
    destruct (handleTapTempoTap_invalid hw2 s1) as (H1 & H2).
    + rewrite R1. exact Hout.
    + split; assumption.
  - intro Hz. apply handleTapTempoTap_no_previous. rewrite R1, Hz. lia.
  - split; reflexivity.
Qed.

End TapTempo.

Lemma tap_tempo_conversion_witness :
  let hw1 := Bench.readings (1 # 2) TOGGLESWITCH_MIDDLE 1000 in
  let hw2 := Bench.readings (1 # 2) TOGGLESWITCH_MIDDLE 1500 in
  let s2 := handleTapTempoTap hw2 (handleTapTempoTap hw1 Bench.ready) in
  tap_tempo_delay_samples s2 = spec_tap_delay_samples 500 /\
  tap_tempo_tremolo_freq_hz s2 = spec_tap_tremolo_freq 500.
Proof.
  intros hw1 hw2.
  apply (proj1 (proj2 (tap_tempo_conversion hw1 hw2 Bench.ready))).
  - reflexivity.
  - vm_compute. split; discriminate.
Defined.

(** C2, counterexample.  Tap tempo mode is entered and the first tap
    falls while the millisecond clock reads 0; the second tap comes 500 ms
    later.  The interval, 500 ms, is inside the accepted range, yet delay
    time and tremolo frequency keep their old values (here 0) instead of
    24000 samples and 2 Hz: a recorded time of 0 counts as no tap. *)
Lemma tap_tempo_counterexample :
  let at_ms t := Bench.readings (1 # 2) TOGGLESWITCH_MIDDLE t in
  let s0 := handleDoublePress (at_ms 0%Z) FOOTSWITCH_1
              (set_bypass_delay false Bench.ready) in
  let s1 := handleNormalPress (at_ms 0%Z) FOOTSWITCH_2 s0 in
  let s2 := handleNormalPress (at_ms 500%Z) FOOTSWITCH_2 s1 in
  pedal_mode s1 = PEDAL_MODE_TAP_TEMPO /\
  tap_tempo_last_tap_time s1 = 0%Z /\
  uint32 (GetNow (at_ms 500%Z) - tap_tempo_last_tap_time s1) = 500%Z /\
  tap_tempo_delay_samples s2 = tap_tempo_delay_samples s1 /\
  tap_tempo_tremolo_freq_hz s2 = tap_tempo_tremolo_freq_hz s1 /\
  ~ (tap_tempo_delay_samples s2 == spec_tap_delay_samples 500)%Q /\
  ~ (tap_tempo_tremolo_freq_hz s2 == spec_tap_tremolo_freq 500)%Q.
Proof.
  qeval.
Qed.

(** ** The block-rate tremolo depth *)

Section TremoloDepth.

Context {L : DspLib}.

Lemma normal_tremolo_depth (hw : Hw) (s : Pedal L) :
  let s' := AudioCallback_normal_tremolo hw s in
  let tremMode := kTremoloModeMap (GetToggleswitchPosition hw TOGGLESWITCH_2) in
  depth s' = (fclamp (p_trem_depth hw) 0 1
              * match tremMode with
                | TREMOLO_HARMONIC => 125 # 100
                | _ => 5 # 10
                end)%Q /\
  dc_offset s' = (1 - depth s')%Q /\
  exists o w, osc s' = osc_SetWaveform w (osc_SetAmp (depth s') o).
Proof.
  unfold AudioCallback_normal_tremolo.
  destruct (kTremoloModeMap (GetToggleswitchPosition hw TOGGLESWITCH_2));
    cbv zeta; (split; [| split]); try reflexivity;
    eexists; eexists; reflexivity.
Qed.

Lemma normal_delay_keeps_tremolo (hw : Hw) (s : Pedal L) :
  let s' := AudioCallback_normal_delay hw s in
  depth s' = depth s /\ dc_offset s' = dc_offset s /\ osc s' = osc s.
Proof.
  unfold AudioCallback_normal_delay, applyDelaySubdivisionAndSetTargets.
  cbv zeta. cases; repeat split; reflexivity.
Qed.

Lemma normal_reverb_mix_keeps_tremolo (hw : Hw) (s : Pedal L) :
  let s' := AudioCallback_normal_reverb_mix hw s in
  depth s' = depth s /\ dc_offset s' = dc_offset s /\ osc s' = osc s.
Proof.
  unfold AudioCallback_normal_reverb_mix.
  cbv zeta. cases; repeat split; reflexivity.
Qed.

Lemma parameters_normal (hw : Hw) (s : Pedal L) :
  pedal_mode s = PEDAL_MODE_NORMAL ->
  AudioCallback_parameters hw s
  = AudioCallback_normal_reverb_mix hw
      (AudioCallback_normal_delay hw
         (AudioCallback_normal_tremolo hw (set_plate_wet (p_verb_amt hw) s))).
Proof.
  intro Hm. unfold AudioCallback_parameters.
  change (pedal_mode (set_plate_wet (p_verb_amt hw) s)) with (pedal_mode s).
  rewrite Hm. reflexivity.
Qed.

Lemma clamped_unit (x : float) :
  (0 <= fclamp x 0 1)%Q /\ (fclamp x 0 1 <= 1)%Q.
Proof. apply fclamp_bounds. lra. Qed.

(** C3 (as amended).  In normal mode, for every reading of the depth knob
    and each tremolo mode, the depth the callback computes (and hands to
    the oscillator as its amplitude) lies between 0 and 0.5 for sine and
    square, and between 0 and 1.25 for harmonic: the clamped reading is
    multiplied by 0.5, respectively by 1.25. *)
Theorem tremolo_depth_range (hw : Hw) (s : Pedal L) :
  pedal_mode s = PEDAL_MODE_NORMAL ->
  let s' := AudioCallback_parameters hw s in
  let tremMode := kTremoloModeMap (GetToggleswitchPosition hw TOGGLESWITCH_2) in
  (tremMode <> TREMOLO_HARMONIC -> (0 <= depth s' <= 5 # 10)%Q) /\
  (tremMode = TREMOLO_HARMONIC -> (0 <= depth s' <= 125 # 100)%Q) /\
  dc_offset s' = (1 - depth s')%Q /\
  (exists o w, osc s' = osc_SetWaveform w (osc_SetAmp (depth s') o)).
Proof.
  intros Hm s' tremMode.
  unfold s'. rewrite (parameters_normal hw s Hm).
  set (s0 := set_plate_wet (p_verb_amt hw) s).
  destruct (normal_tremolo_depth hw s0) as (Hd & Hdc & o & w & Ho).
  destruct (normal_delay_keeps_tremolo hw (AudioCallback_normal_tremolo hw s0))
    as (D1 & D2 & D3).
  destruct (normal_reverb_mix_keeps_tremolo hw
              (AudioCallback_normal_delay hw (AudioCallback_normal_tremolo hw s0)))
    as (R1 & R2 & R3).
  cbv zeta in *.
  rewrite R1, R2, R3, D1, D2, D3.
  destruct (clamped_unit (p_trem_depth hw)) as [C0 C1].
  fold tremMode in Hd.
  split; [| split; [| split]].
  - intro Hn. rewrite Hd.
    destruct tremMode; [| congruence |]; lra.
  - intro Hh. rewrite Hd, Hh. lra.
  - exact Hdc.
  - exists o, w. exact Ho.
Qed.

End TremoloDepth.

Lemma tremolo_depth_range_witness :
  let hw := Bench.readings 1 TOGGLESWITCH_DOWN 0 in
  (0 <= depth (AudioCallback_parameters hw Bench.ready) <= 5 # 10)%Q.
Proof.
  intro hw.
  apply (proj1 (tremolo_depth_range hw Bench.ready eq_refl)).
  discriminate.
Defined.

(** C3, counterexample.  Harmonic mode (switch 2 in the middle) with the
    depth knob fully up: the scaled depth is 1.25, above 0.625. *)
Lemma tremolo_depth_counterexample :
  let hw := Bench.readings 1 TOGGLESWITCH_MIDDLE 0 in
  let s' := AudioCallback_parameters hw Bench.ready in
  pedal_mode Bench.ready = PEDAL_MODE_NORMAL /\
  kTremoloModeMap (GetToggleswitchPosition hw TOGGLESWITCH_2) = TREMOLO_HARMONIC /\
  (depth s' == 125 # 100)%Q /\
  ~ (depth s' <= 625 # 1000)%Q.
Proof.
  qeval.
Qed.

(** ** The sample loop and the bypass flags *)

Section SampleLoop.

Context {L : DspLib}.

Lemma sample_delay_bypassed g x (s : Pedal L) :
  bypass_delay s = true -> sample_delay g x s = (x, s).
Proof.
  intro Hb. unfold sample_delay. destruct x as [s_L s_R].
  rewrite Hb. reflexivity.
Qed.

Lemma sample_tremolo_bypassed hw g x (s : Pedal L) :
  bypass_trem s = true -> sample_tremolo hw g x s = (x, s).
Proof.
  intro Hb. unfold sample_tremolo. destruct x as [s_L s_R].
  rewrite Hb. reflexivity.
Qed.

Lemma sample_tremolo_advances hw g x (s : Pedal L) :
  bypass_trem s = false ->
  osc (snd (sample_tremolo hw g x s)) = snd (osc_Process (osc s)).
Proof.
  intro Hb. unfold sample_tremolo, both. destruct x as [s_L s_R].
  rewrite Hb. cbn [negb].
  destruct (osc_Process (osc s)) as [lfo o]. cbn [snd].
  cases; reflexivity.
Qed.

Lemma sample_delay_advances g x (s : Pedal L) :
  bypass_delay s = false ->
  delayL (snd (sample_delay g x s)) = snd (Delay_Process (fst x) (delayL s)) /\
  delayR (snd (sample_delay g x s)) = snd (Delay_Process (snd x) (delayR s)).
Proof.
  intro Hb. unfold sample_delay. destruct x as [s_L s_R].
  rewrite Hb. cbn [negb fst snd].
  destruct (Delay_Process s_L (delayL s)) as [sigL dL].
  change (delayR (set_delayL dL s)) with (delayR s).
  destruct (Delay_Process s_R (delayR s)) as [sigR dR].
  split; reflexivity.
Qed.

Lemma sample_notch_keeps :
  keeps control_state sample_notch /\ keeps delayL sample_notch /\
  keeps delayR sample_notch /\ keeps osc sample_notch.
Proof.
  repeat split; stage_keeps; unfold sample_notch, both; cases; reflexivity.
Qed.

Lemma sample_delay_keeps g :
  keeps control_state (sample_delay g) /\ keeps osc (sample_delay g).
Proof.
  repeat split; stage_keeps; unfold sample_delay; cases; reflexivity.
Qed.

Lemma sample_tremolo_keeps hw g :
  keeps control_state (sample_tremolo hw g) /\
  keeps delayL (sample_tremolo hw g) /\ keeps delayR (sample_tremolo hw g).
Proof.
  repeat split; stage_keeps; unfold sample_tremolo, both; cases; reflexivity.
Qed.

Lemma sample_reverb_keeps :
  keeps control_state sample_reverb /\ keeps delayL sample_reverb /\
  keeps delayR sample_reverb /\ keeps osc sample_reverb.
Proof.
  repeat split; stage_keeps; unfold sample_reverb; cases; reflexivity.
Qed.

(** The loop body as the composition of its stages. *)
Lemma AudioCallback_sample_stages hw dry (s : Pedal L) :
  exists x0 g_trem g_delay x1 s1 x2 s2 x3 s3 x4,
    sample_notch x0 s = (x1, s1) /\
    sample_delay g_delay x1 s1 = (x2, s2) /\
    sample_tremolo hw g_trem x2 s2 = (x3, s3) /\
    sample_reverb x3 s3 = (x4, snd (AudioCallback_sample hw dry s)).
Proof.
  unfold AudioCallback_sample. destruct dry as [dry_L dry_R].
  match goal with
  | |- context [sample_notch ?x s] =>
      exists x; destruct (sample_notch x s) as [x1 s1]
  end.
  match goal with
  | |- context [let '(_, _) := ?gains in _] =>
      destruct gains as [gt gd]
  end.
  exists gt, gd, x1, s1.
  destruct (sample_delay gd x1 s1) as [x2 s2]. exists x2, s2.
  destruct (sample_tremolo hw gt x2 s2) as [x3 s3]. exists x3, s3.
  destruct (sample_reverb x3 s3) as [[o_L o_R] s4]. exists (o_L, o_R).
  repeat split.
  destruct (mono_stereo_mode s4 =? MS_MODE_MIMO)%Z; reflexivity.
Qed.

Lemma control_state_flags (s1 s2 : Pedal L) :
  control_state s1 = control_state s2 ->
  bypass_verb s1 = bypass_verb s2 /\
  bypass_trem s1 = bypass_trem s2 /\
  bypass_delay s1 = bypass_delay s2 /\
  pedal_mode s1 = pedal_mode s2 /\
  tap_tempo_controls_tremolo s1 = tap_tempo_controls_tremolo s2.
Proof.
  unfold control_state. intro H. injection H. intros.
  repeat split; assumption.
Qed.

(** One sample: the control variables stay; a bypassed delay leaves both
    delay objects as they are, a bypassed tremolo leaves the oscillator. *)
Lemma AudioCallback_sample_frame hw dry (s : Pedal L) :
  let s' := snd (AudioCallback_sample hw dry s) in
  control_state s' = control_state s /\
  (bypass_delay s = true -> delayL s' = delayL s /\ delayR s' = delayR s) /\
  (bypass_trem s = true -> osc s' = osc s) /\
  (bypass_trem s = false -> osc s' = snd (osc_Process (osc s))) /\
  (bypass_delay s = false ->
   exists x, delayL s' = snd (Delay_Process (fst x) (delayL s)) /\
             delayR s' = snd (Delay_Process (snd x) (delayR s))).
Proof.
  destruct (AudioCallback_sample_stages hw dry s)
    as (x0 & gt & gd & x1 & s1 & x2 & s2 & x3 & s3 & x4 & E1 & E2 & E3 & E4).
  cbv zeta. set (s' := snd (AudioCallback_sample hw dry s)) in *.
  destruct sample_notch_keeps as (K1c & K1l & K1r & K1o).
  destruct (sample_delay_keeps gd) as (K2c & K2o).
  destruct (sample_tremolo_keeps hw gt) as (K3c & K3l & K3r).
  destruct sample_reverb_keeps as (K4c & K4l & K4r & K4o).
  pose proof (K1c _ _ _ _ E1) as C1. pose proof (K1l _ _ _ _ E1) as L1.
  pose proof (K1r _ _ _ _ E1) as R1. pose proof (K1o _ _ _ _ E1) as O1.
  pose proof (K2c _ _ _ _ E2) as C2. pose proof (K2o _ _ _ _ E2) as O2.
  pose proof (K3c _ _ _ _ E3) as C3. pose proof (K3l _ _ _ _ E3) as L3.
  pose proof (K3r _ _ _ _ E3) as R3.
  pose proof (K4c _ _ _ _ E4) as C4. pose proof (K4l _ _ _ _ E4) as L4.
  pose proof (K4r _ _ _ _ E4) as R4. pose proof (K4o _ _ _ _ E4) as O4.
  clear K1c K1l K1r K1o K2c K2o K3c K3l K3r K4c K4l K4r K4o.
  destruct (control_state_flags C1) as (_ & T1 & D1 & _).
  destruct (control_state_flags C2) as (_ & T2 & D2 & _).
  split; [| split; [| split; [| split]]].
  - congruence.
  - intro Hb.
    assert (Hb1 : bypass_delay s1 = true) by congruence.
    rewrite (@sample_delay_bypassed gd x1 s1 Hb1) in E2.
    injection E2 as _ E2. subst s2. split; congruence.
  - intro Hb.
    assert (Hb2 : bypass_trem s2 = true) by congruence.
    rewrite (@sample_tremolo_bypassed hw gt x2 s2 Hb2) in E3.
    injection E3 as _ E3. subst s3. congruence.
  - intro Hb.
    assert (Hb2 : bypass_trem s2 = false) by congruence.
    pose proof (@sample_tremolo_advances hw gt x2 s2 Hb2) as A.
    rewrite E3 in A. cbn [snd] in A. congruence.
  - intro Hb.
    assert (Hb1 : bypass_delay s1 = false) by congruence.
    destruct (@sample_delay_advances gd x1 s1 Hb1) as [AL AR].
    rewrite E2 in AL, AR. cbn [snd] in AL, AR.
    exists x1. split; congruence.
Qed.

Lemma AudioCallback_loop_cons hw dry rest (s : Pedal L) :
  snd (AudioCallback_loop hw (dry :: rest) s)
  = snd (AudioCallback_loop hw rest (snd (AudioCallback_sample hw dry s))).
Proof.
  simpl. destruct (AudioCallback_sample hw dry s) as [y s1]. cbn [snd].
  destruct (AudioCallback_loop hw rest s1) as [ys s2]. reflexivity.
Qed.

(** A whole block: the same three facts by induction on the block. *)
Lemma AudioCallback_loop_frame hw input (s : Pedal L) :
  let s' := snd (AudioCallback_loop hw input s) in
  control_state s' = control_state s /\
  (bypass_delay s = true -> delayL s' = delayL s /\ delayR s' = delayR s) /\
  (bypass_trem s = true -> osc s' = osc s).
Proof.
  revert s. induction input as [| dry rest IH]; intro s.
  - cbn. repeat split; reflexivity.
  - cbv zeta. rewrite AudioCallback_loop_cons.
    destruct (AudioCallback_sample_frame hw dry s) as (C & D & O & _).
    cbv zeta in C, D, O.
    set (s1 := snd (AudioCallback_sample hw dry s)) in *.
    destruct (IH s1) as (C' & D' & O'). cbv zeta in C', D', O'.
    destruct (control_state_flags C) as (_ & T1 & D1 & _).
    split; [| split].
    + congruence.
    + intro Hb. destruct (D Hb) as [DL DR].
      assert (Hb1 : bypass_delay s1 = true) by congruence.
      destruct (D' Hb1) as [DL' DR']. split; congruence.
    + intro Hb. assert (Hb1 : bypass_trem s1 = true) by congruence.
      rewrite (O' Hb1). apply O. exact Hb.
Qed.

(** C4 (as amended).  When the delay effect is bypassed the delay stage is
    skipped as a whole and the delay line is frozen: for every sample
    processed while [bypass_delay] is true the stage passes its input on
    untouched, and over the whole block neither delay line is read or
    written nor does its smoothed delay time move, so nothing recirculates
    until the effect is switched on again. *)
Theorem delay_bypass_freezes_line hw input (s : Pedal L) :
  bypass_delay s = true ->
  let s' := snd (AudioCallback_loop hw input s) in
  delayL s' = delayL s /\ delayR s' = delayR s /\
  bypass_delay s' = true /\
  (forall g x, sample_delay g x s' = (x, s')).
Proof.
  intros Hb s'.
  destruct (AudioCallback_loop_frame hw input s) as (C & D & _).
  cbv zeta in C, D. fold s' in C, D.
  destruct (control_state_flags C) as (_ & _ & D1 & _).
  destruct (D Hb) as [DL DR].
  assert (Hb' : bypass_delay s' = true) by congruence.
  repeat split; try assumption.
  intros g x. apply sample_delay_bypassed. exact Hb'.
Qed.

(** C5 (as amended).  When the tremolo effect is bypassed the tremolo
    stage is skipped as a whole, oscillator included: for every sample
    processed while [bypass_trem] is true the stage passes its input on
    untouched and [osc.Process()] is not called, so over the whole block
    the oscillator, and with it the LFO phase, stays where it was; the
    oscillator advances, once per sample, only while tremolo is on. *)
Theorem tremolo_bypass_freezes_lfo hw input (s : Pedal L) :
  bypass_trem s = true ->
  let s' := snd (AudioCallback_loop hw input s) in
  osc s' = osc s /\
  bypass_trem s' = true /\
  (forall g x, sample_tremolo hw g x s' = (x, s')) /\
  (forall dry (t : Pedal L),
      bypass_trem t = false ->
      osc (snd (AudioCallback_sample hw dry t)) = snd (osc_Process (osc t))).
Proof.
  intros Hb s'.
  destruct (AudioCallback_loop_frame hw input s) as (C & _ & O).
  cbv zeta in C, O. fold s' in C, O.
  destruct (control_state_flags C) as (_ & T1 & _).
  assert (Hb' : bypass_trem s' = true) by congruence.
  repeat split; auto.
  - intros g x. apply sample_tremolo_bypassed. exact Hb'.
  - intros dry t Ht.
    destruct (AudioCallback_sample_frame hw dry t) as (_ & _ & _ & A & _).
    apply A. exact Ht.
Qed.

End SampleLoop.

Lemma delay_bypass_freezes_line_witness :
  let hw := Bench.readings (1 # 2) TOGGLESWITCH_DOWN 0 in
  let s' := snd (AudioCallback_loop hw [(1, 1); (0, 0)] Bench.echoing) in
  delayL s' = delayL Bench.echoing /\ delayR s' = delayR Bench.echoing /\
  bypass_delay s' = true /\
  (forall g x, sample_delay g x s' = (x, s')).
Proof.
  intro hw.
  apply (delay_bypass_freezes_line hw [(1, 1); (0, 0)] Bench.echoing).
  reflexivity.
Defined.

(** C4, counterexample.  Delay bypassed, a sample sitting in the line with
    feedback one half: after a sample has been processed the line holds
    what it held and the write pointer has not moved, whereas reading it
    and writing back feedback times the read value would have stored one
    half at the head and stepped the pointer. *)
Lemma delay_bypass_counterexample :
  let hw := Bench.readings (1 # 2) TOGGLESWITCH_DOWN 0 in
  let s := Bench.echoing in
  let s' := snd (AudioCallback_loop hw [(1, 1)] s) in
  let recirculated :=
    Bench.Line_Write (feedback (delayL s) * Bench.Line_Read (del (delayL s)))
      (del (delayL s)) in
  bypass_delay s = true /\
  del (delayL s') = del (delayL s) /\
  Bench.line_ (del (delayL s')) = [0; 1; 0; 0] /\
  Bench.write_ptr_ (del (delayL s')) = 0%nat /\
  Bench.write_ptr_ recirculated = 3%nat /\
  del (delayL s') <> recirculated /\
  del (delayL s') <> del (snd (Delay_Process 1 (delayL s))).
Proof.
  qeval.
Qed.

Lemma tremolo_bypass_freezes_lfo_witness :
  let hw := Bench.readings (1 # 2) TOGGLESWITCH_DOWN 0 in
  let s' := snd (AudioCallback_loop hw [(1, 1); (0, 0)] Bench.humming) in
  osc s' = osc Bench.humming.
Proof.
  intro hw.
  apply (tremolo_bypass_freezes_lfo hw [(1, 1); (0, 0)] Bench.humming).
  reflexivity.
Defined.

(** C5, counterexample.  Tremolo bypassed, LFO at a quarter cycle and
    running at a tenth of a cycle per sample: after a sample has been
    processed the phase is still one quarter, whereas one [Process] call
    would have moved it to 0.35. *)
Lemma tremolo_bypass_counterexample :
  let hw := Bench.readings (1 # 2) TOGGLESWITCH_DOWN 0 in
  let s := Bench.humming in
  let s' := snd (AudioCallback_loop hw [(1, 1)] s) in
  bypass_trem s = true /\
  (Bench.phase (osc s) == 1 # 4)%Q /\
  (Bench.phase (osc s') == 1 # 4)%Q /\
  (Bench.phase (snd (Bench.Osc_Process (osc s))) == 35 # 100)%Q /\
  ~ (Bench.phase (osc s') == Bench.phase (snd (Bench.Osc_Process (osc s))))%Q.
Proof.
  qeval.
Qed.

(** ** Persistent settings *)

Section SettingsStore.

Context {L : DspLib}.

Lemma validated_in_range (r : Settings) :
  modes_in_range r ->
  validated_mono_stereo r = mono_stereo_mode_ r /\
  validated_makeup_gain r = makeup_gain_mode r.
Proof.
  unfold modes_in_range, validated_mono_stereo, validated_makeup_gain.
  unfold MS_MODE_MIMO, MS_MODE_SISO, MAKEUP_GAIN_NONE, MAKEUP_GAIN_HEAVY.
  intros [[A B] [C D]].
  assert (E1 : (mono_stereo_mode_ r <? 0)%Z = false) by (apply Z.ltb_ge; lia).
  assert (E2 : (mono_stereo_mode_ r >? 2)%Z = false)
    by (rewrite Z.gtb_ltb; apply Z.ltb_ge; lia).
  assert (E3 : (makeup_gain_mode r <? 0)%Z = false) by (apply Z.ltb_ge; lia).
  assert (E4 : (makeup_gain_mode r >? 2)%Z = false)
    by (rewrite Z.gtb_ltb; apply Z.ltb_ge; lia).
  rewrite E1, E2, E3, E4. split; reflexivity.
Qed.

Lemma validated_out_of_range (r : Settings) :
  ((mono_stereo_mode_ r < MS_MODE_MIMO \/ MS_MODE_SISO < mono_stereo_mode_ r)%Z ->
   validated_mono_stereo r = MS_MODE_MIMO) /\
  ((makeup_gain_mode r < MAKEUP_GAIN_NONE \/ MAKEUP_GAIN_HEAVY < makeup_gain_mode r)%Z ->
   validated_makeup_gain r = MAKEUP_GAIN_NORMAL).
Proof.
  unfold validated_mono_stereo, validated_makeup_gain.
  split; intros [H | H].
  - apply Z.ltb_lt in H. rewrite H. reflexivity.
  - apply Z.ltb_lt in H. rewrite <- Z.gtb_ltb in H. rewrite H.
    rewrite orb_true_r. reflexivity.
  - apply Z.ltb_lt in H. rewrite H. reflexivity.
  - apply Z.ltb_lt in H. rewrite <- Z.gtb_ltb in H. rewrite H.
    rewrite orb_true_r. reflexivity.
Qed.

(** A record of the current version is loaded in one pass, and the storage
    object is not written. *)
Lemma loadSettings_current (fuel : nat) (s : Pedal L) :
  let r := GetSettings (SavedSettings s) in
  version r = SETTINGS_VERSION ->
  exists s', loadSettings (S fuel) s = Some s' /\
    SavedSettings s' = SavedSettings s /\
    loaded_reverb s' r /\ loaded_bypass s' r /\
    mono_stereo_mode s' = validated_mono_stereo r /\
    current_makeup_gain s' = validated_makeup_gain r /\
    pedal_mode s' = pedal_mode s.
Proof.
  intros r Hv. cbn [loadSettings]. fold r. rewrite Hv.
  rewrite Z.eqb_refl. cbn [negb].
  eexists. split; [reflexivity |].
  unfold loaded_reverb, loaded_bypass, validated_mono_stereo,
    validated_makeup_gain, updateReverbScales.
  cbv zeta.
  change (current_makeup_gain
            (set_current_makeup_gain (makeup_gain_mode r) ?[x]))
    with (makeup_gain_mode r).
  cases; repeat split; reflexivity.
Qed.

(** A record of another version is replaced by the defaults, which are
    then loaded by the nested call. *)
Lemma loadSettings_outdated (fuel : nat) (s : Pedal L) :
  version (GetSettings (SavedSettings s)) <> SETTINGS_VERSION ->
  loadSettings (S fuel) s
  = loadSettings fuel (set_SavedSettings (RestoreDefaults (SavedSettings s)) s).
Proof.
  intro Hv. cbn [loadSettings].
  apply Z.eqb_neq in Hv. rewrite Hv. reflexivity.
Qed.

Lemma defaultSettings_valid :
  version defaultSettings = SETTINGS_VERSION /\ modes_in_range defaultSettings.
Proof.
  split; [reflexivity |]. unfold modes_in_range. cbv. repeat split; discriminate.
Qed.

Lemma main_startup_defaults (s0 : Pedal L) :
  main_defaultSettings (main_bind_takeovers (static_init s0)) = defaultSettings.
Proof. reflexivity. Qed.

Lemma loaded_defaults (s : Pedal L) :
  loaded_reverb s defaultSettings -> loaded_bypass s defaultSettings ->
  mono_stereo_mode s = validated_mono_stereo defaultSettings ->
  current_makeup_gain s = validated_makeup_gain defaultSettings ->
  loaded_exactly s defaultSettings.
Proof.
  intros R B M G. unfold loaded_exactly, loaded_modes.
  repeat split; try apply R; try apply B; assumption.
Qed.

(** Start-up on a flash image that holds a user record [r]. *)
Lemma main_startup_user (fuel : nat) (s0 : Pedal L) (r : Settings) :
  qspi (SavedSettings s0) = (STATE_USER, r) ->
  version r = SETTINGS_VERSION ->
  exists s', main_startup (S fuel) s0 = Some s' /\
    GetSettings (SavedSettings s') = r /\
    loaded_reverb s' r /\ loaded_bypass s' r /\
    mono_stereo_mode s' = validated_mono_stereo r /\
    current_makeup_gain s' = validated_makeup_gain r.
Proof.
  intros Hq Hv. unfold main_startup.
  set (s1 := main_bind_takeovers (static_init s0)).
  assert (Hs : SavedSettings s1 = SavedSettings s0) by reflexivity.
  rewrite Hs.
  set (s2 := set_SavedSettings
               (Storage_Init (main_defaultSettings s1) (SavedSettings s0)) s1).
  assert (Hr : GetSettings (SavedSettings s2) = r).
  { unfold s2. change (SavedSettings (set_SavedSettings ?p s1)) with p.
    unfold Storage_Init. rewrite Hq. reflexivity. }
  destruct (loadSettings_current fuel s2) as (s' & E & S' & R & B & M & G & _).
  { rewrite Hr. exact Hv. }
  exists s'. split; [exact E |]. split; [rewrite S'; exact Hr |].
  rewrite Hr in R, B, M, G. repeat (split; [assumption |]). assumption.
Qed.

(** C6 (as amended).  If the version field of the persisted record differs
    from [SETTINGS_VERSION], [loadSettings] discards the whole record and
    every field, in the record and in the working variables, takes its
    compiled-in default.  If the version matches, the record is kept, the
    eight reverb parameters and the three bypass flags are loaded exactly
    as saved, and the mono-stereo mode and makeup-gain tier are loaded as
    saved whenever they are in range; so a record with in-range modes that
    is flushed to flash and loaded at the next start-up, the version being
    unchanged, reproduces every field. *)
Theorem loadSettings_versioned :
  (forall (fuel : nat) (s : Pedal L),
      default_settings_ (SavedSettings s) = defaultSettings ->
      let r := GetSettings (SavedSettings s) in
      exists s', loadSettings (S (S fuel)) s = Some s' /\
        (version r <> SETTINGS_VERSION ->
         GetSettings (SavedSettings s') = defaultSettings /\
         loaded_exactly s' defaultSettings) /\
        (version r = SETTINGS_VERSION ->
         SavedSettings s' = SavedSettings s /\
         loaded_reverb s' r /\ loaded_bypass s' r /\
         (modes_in_range r -> loaded_exactly s' r))) /\
  (forall (fuel : nat) (s s0 : Pedal L),
      let r := GetSettings (SavedSettings s) in
      trigger_settings_save s = true ->
      version r = SETTINGS_VERSION -> modes_in_range r ->
      qspi (SavedSettings s0) = qspi (SavedSettings (main_loop_flush s)) ->
      exists s', main_startup (S fuel) s0 = Some s' /\
        GetSettings (SavedSettings s') = r /\ loaded_exactly s' r).
Proof.
  split.
  - intros fuel s Hd r.
    destruct (Z.eq_dec (version r) SETTINGS_VERSION) as [Hv | Hv].
    + destruct (loadSettings_current (S fuel) s Hv)
        as (s' & E & S' & R & B & M & G & _).
      exists s'. split; [exact E |]. split; [intro; contradiction |].
      intros _. fold r in R, B, M, G.
      split; [exact S' |]. split; [exact R |]. split; [exact B |].
      intro Hm. destruct (validated_in_range Hm) as [V1 V2].
      split; [exact R |]. split; [exact B |]. split; congruence.
    + rewrite (loadSettings_outdated (S fuel) s Hv).
      set (s1 := set_SavedSettings (RestoreDefaults (SavedSettings s)) s).
      assert (Hr : GetSettings (SavedSettings s1) = defaultSettings).
      { unfold s1, RestoreDefaults, StoreSettings, GetSettings. cbn.
        exact Hd. }
      destruct (loadSettings_current fuel s1) as (s' & E & S' & R & B & M & G & _).
      { rewrite Hr. reflexivity. }
      exists s'. split; [exact E |]. split; [| intro; contradiction].
      intros _. split; [rewrite S'; exact Hr |].
      rewrite Hr in R, B, M, G. apply loaded_defaults; assumption.
  - intros fuel s s0 r Ht Hv Hm Hq.
    assert (Hf : qspi (SavedSettings (main_loop_flush s)) = (STATE_USER, r)).
    { unfold main_loop_flush. rewrite Ht. reflexivity. }
    rewrite Hf in Hq.
    destruct (main_startup_user fuel s0 Hq Hv) as (s' & E & G & R & B & M & K).
    exists s'. split; [exact E |]. split; [exact G |].
    destruct (validated_in_range Hm) as [V1 V2].
    split; [exact R |]. split; [exact B |]. split; congruence.
Qed.

(** The capture-based control file: a record of its version is loaded
    in one pass, the stored index as it is. *)
Lemma CaptureFile_loadSettings_current (fuel : nat)
  (g : CaptureFile.Globals L) :
  let r := CaptureFile.GetSettings (CaptureFile.SavedSettings g) in
  CaptureFile.version r = CaptureFile.SETTINGS_VERSION ->
  exists g', CaptureFile.loadSettings (S fuel) g = Some g' /\
    CaptureFile.SavedSettings g' = CaptureFile.SavedSettings g /\
    CaptureFile.mono_stereo_mode g' = CaptureFile.mono_stereo_mode_ r /\
    ((CaptureFile.mono_stereo_mode_ r < MS_MODE_MIMO \/
      MS_MODE_SISO < CaptureFile.mono_stereo_mode_ r)%Z ->
     CaptureFile.reverb_dry_scale_factor g'
     = CaptureFile.reverb_dry_scale_factor g /\
     CaptureFile.reverb_reverse_scale_factor g'
     = CaptureFile.reverb_reverse_scale_factor g) /\
    (CaptureFile.bypass_verb g' = CaptureFile.bypass_reverb r /\
     CaptureFile.bypass_trem g' = CaptureFile.bypass_tremolo r /\
     CaptureFile.bypass_delay g' = CaptureFile.bypass_delay_ r).
Proof.
  intros r Hv. cbn [CaptureFile.loadSettings]. fold r. rewrite Hv.
  rewrite Z.eqb_refl. cbn [negb].
  eexists. split; [reflexivity |].
  unfold CaptureFile.updateReverbScales. cbv zeta.
  cbn [CaptureFile.mono_stereo_mode].
  unfold MS_MODE_MIMO, MS_MODE_MISO, MS_MODE_SISO.
  destruct (CaptureFile.mono_stereo_mode_ r =? 0)%Z eqn:E0;
    [| destruct ((CaptureFile.mono_stereo_mode_ r =? 1)%Z
                 || (CaptureFile.mono_stereo_mode_ r =? 2)%Z) eqn:E1];
    (split; [reflexivity |]); (split; [reflexivity |]);
    (split; [| repeat split; reflexivity]); intro Hout.
  - apply Z.eqb_eq in E0. lia.
  - apply orb_true_iff in E1. destruct E1 as [E | E]; apply Z.eqb_eq in E; lia.
  - split; reflexivity.
Qed.

(** C8.  Neither control file fails on a record whose mono-stereo index
    is out of range (below [MS_MODE_MIMO] or above [MS_MODE_SISO]):
    [loadSettings] returns.  In the tap-tempo control file the working
    mode is set to [MS_MODE_MIMO] (and an out-of-range makeup-gain tier to
    [MAKEUP_GAIN_NORMAL]); with the current version the other fields are
    loaded as saved, the pedal mode is untouched, and the record itself is
    left as it was stored, so [restoreMonoStereoSettings] brings the stored
    index and tier back into the working variables; with another version
    the defaults are loaded, and they carry the same two values.  In the
    capture-based control file the stored index is loaded as it is,
    whatever its value, and for an index out of range the reverb scale
    factors keep their old values. *)
Theorem loadSettings_out_of_range (fuel : nat) (s : Pedal L)
  (g : CaptureFile.Globals L) :
  let r := GetSettings (SavedSettings s) in
  let ms_out :=
    (mono_stereo_mode_ r < MS_MODE_MIMO \/ MS_MODE_SISO < mono_stereo_mode_ r)%Z in
  let gain_out :=
    (makeup_gain_mode r < MAKEUP_GAIN_NONE \/ MAKEUP_GAIN_HEAVY < makeup_gain_mode r)%Z in
  let r4 := CaptureFile.GetSettings (CaptureFile.SavedSettings g) in
  (version r = SETTINGS_VERSION ->
   exists s', loadSettings (S fuel) s = Some s' /\
     (ms_out -> mono_stereo_mode s' = MS_MODE_MIMO) /\
     (gain_out -> current_makeup_gain s' = MAKEUP_GAIN_NORMAL) /\
     loaded_reverb s' r /\ loaded_bypass s' r /\
     pedal_mode s' = pedal_mode s /\
     GetSettings (SavedSettings s') = r /\
     mono_stereo_mode (restoreMonoStereoSettings s') = mono_stereo_mode_ r /\
     current_makeup_gain (restoreMonoStereoSettings s') = makeup_gain_mode r) /\
  (default_settings_ (SavedSettings s) = defaultSettings ->
   exists s', loadSettings (S (S fuel)) s = Some s' /\
     (ms_out -> mono_stereo_mode s' = MS_MODE_MIMO) /\
     (gain_out -> current_makeup_gain s' = MAKEUP_GAIN_NORMAL)) /\
  (CaptureFile.version r4 = CaptureFile.SETTINGS_VERSION ->
   exists g', CaptureFile.loadSettings (S fuel) g = Some g' /\
     CaptureFile.mono_stereo_mode g' = CaptureFile.mono_stereo_mode_ r4 /\
     ((CaptureFile.mono_stereo_mode_ r4 < MS_MODE_MIMO \/
       MS_MODE_SISO < CaptureFile.mono_stereo_mode_ r4)%Z ->
      CaptureFile.mono_stereo_mode g' <> MS_MODE_MIMO /\
      CaptureFile.reverb_dry_scale_factor g'
      = CaptureFile.reverb_dry_scale_factor g /\
      CaptureFile.reverb_reverse_scale_factor g'
      = CaptureFile.reverb_reverse_scale_factor g)).
Proof.
  intros r ms_out gain_out r4.
  assert (Current : forall n, version r = SETTINGS_VERSION ->
            exists s', loadSettings (S n) s = Some s' /\
              (ms_out -> mono_stereo_mode s' = MS_MODE_MIMO) /\
              (gain_out -> current_makeup_gain s' = MAKEUP_GAIN_NORMAL) /\
              loaded_reverb s' r /\ loaded_bypass s' r /\
              pedal_mode s' = pedal_mode s /\
              GetSettings (SavedSettings s') = r /\
              mono_stereo_mode (restoreMonoStereoSettings s')
              = mono_stereo_mode_ r /\
              current_makeup_gain (restoreMonoStereoSettings s')
              = makeup_gain_mode r).
  { intros n Hv.
    destruct (loadSettings_current n s Hv) as (s' & E & S' & R & B & M & G & P).
    destruct (validated_out_of_range r) as [V1 V2]. fold r in R, B, M, G.
    assert (K : GetSettings (SavedSettings s') = r) by (rewrite S'; reflexivity).
    exists s'. split; [exact E |]. split; [| split].
    - intro H. rewrite M. apply V1. exact H.
    - intro H. rewrite G. apply V2. exact H.
    - split; [exact R |]. split; [exact B |]. split; [exact P |].
      split; [exact K |].
      unfold restoreMonoStereoSettings, updateReverbScales. cbv zeta.
      rewrite K. cases; split; reflexivity. }
  split; [apply Current |]. split.
  - intro Hd.
    destruct (Z.eq_dec (version r) SETTINGS_VERSION) as [Hv | Hv].
    + destruct (Current (S fuel) Hv) as (s' & E & M & G & _).
      exists s'. split; [exact E |]. split; assumption.
    + rewrite (loadSettings_outdated (S fuel) s Hv).
      set (s1 := set_SavedSettings (RestoreDefaults (SavedSettings s)) s).
      assert (Hr : GetSettings (SavedSettings s1) = defaultSettings).
      { unfold s1, RestoreDefaults, StoreSettings, GetSettings. cbn. exact Hd. }
      destruct (loadSettings_current fuel s1) as (s' & E & _ & _ & _ & M & G & _).
      { rewrite Hr. reflexivity. }
      rewrite Hr in M, G.
      exists s'. split; [exact E |]. split; intros _; assumption.
  - intro Hv.
    destruct (CaptureFile_loadSettings_current fuel g Hv)
      as (g' & E & _ & M & Sc & _).
    fold r4 in M, Sc.
    exists g'. split; [exact E |]. split; [exact M |].
    intro Hout. destruct (Sc Hout) as [D R]. split; [| split; assumption].
    rewrite M. unfold MS_MODE_MIMO, MS_MODE_SISO in *. lia.
Qed.

(** C10.  [saveSettings] sets the version and the eight reverb fields of
    the in-memory record from the working variables and requests a flush;
    the mono-stereo mode, the makeup-gain tier and the three bypass fields
    of the record keep their values, and so does the flash image. *)
Theorem saveSettings_frame (s : Pedal L) :
  let r := GetSettings (SavedSettings s) in
  let r' := GetSettings (SavedSettings (saveSettings s)) in
  (version r' = SETTINGS_VERSION /\
   decay r' = plate_decay s /\
   diffusion r' = plate_tank_diffusion s /\
   input_cutoff_freq r' = plate_input_damp_high s /\
   tank_cutoff_freq r' = plate_tank_damp_high s /\
   tank_mod_speed r' = plate_tank_mod_speed s /\
   tank_mod_depth r' = plate_tank_mod_depth s /\
   tank_mod_shape r' = plate_tank_mod_shape s /\
   pre_delay r' = plate_pre_delay s) /\
  (mono_stereo_mode_ r' = mono_stereo_mode_ r /\
   makeup_gain_mode r' = makeup_gain_mode r /\
   bypass_reverb r' = bypass_reverb r /\
   bypass_delay_ r' = bypass_delay_ r /\
   bypass_tremolo r' = bypass_tremolo r) /\
  qspi (SavedSettings (saveSettings s)) = qspi (SavedSettings s) /\
  trigger_settings_save (saveSettings s) = true.
Proof.
  cbv zeta. repeat split; reflexivity.
Qed.

End SettingsStore.

Lemma loadSettings_versioned_witness :
  exists s', loadSettings 2 Bench.outdated = Some s' /\
    GetSettings (SavedSettings s') = defaultSettings /\
    loaded_exactly s' defaultSettings.
Proof.
  destruct (proj1 loadSettings_versioned 0%nat Bench.outdated eq_refl)
    as (s' & E & Hold & _).
  exists s'. split; [exact E |]. apply Hold. vm_compute. discriminate.
Defined.

(** C6, counterexample.  The record has the current version and a
    mono-stereo index of 7: the load keeps the record but the mode it
    loads is [MS_MODE_MIMO], not the 7 that was saved. *)
Lemma loadSettings_counterexample :
  let r := GetSettings (SavedSettings Bench.stray) in
  version r = SETTINGS_VERSION /\
  mono_stereo_mode_ r = 7%Z /\
  option_map mono_stereo_mode (loadSettings 2 Bench.stray) = Some MS_MODE_MIMO /\
  option_map mono_stereo_mode (loadSettings 2 Bench.stray)
  <> Some (mono_stereo_mode_ r).
Proof.
  qeval.
Qed.

Lemma loadSettings_out_of_range_witness :
  exists s', loadSettings 1 Bench.stray = Some s' /\
    mono_stereo_mode s' = MS_MODE_MIMO /\
    current_makeup_gain s' = MAKEUP_GAIN_NORMAL.
Proof.
  destruct (proj1 (loadSettings_out_of_range 0%nat Bench.stray Bench.stray4)
              eq_refl)
    as (s' & E & M & G & _).
  exists s'. split; [exact E |]. split.
  - apply M. right. reflexivity.
  - apply G. right. reflexivity.
Defined.

(** C8, counterexamples.  The capture-based control file, a record of
    its version whose mono-stereo index is 7: the load returns with the
    mode at 7, not at [MS_MODE_MIMO], and the reverb scale factors still
    at their initial 1 and 1.  The tap-tempo control file, a record of its
    version with index 7 and tier 9: the load sets the working mode to
    [MS_MODE_MIMO] but leaves 7 and 9 in the record, and
    [restoreMonoStereoSettings], which leaving the mono-stereo edit without
    saving runs, puts both into the working variables. *)
Lemma loadSettings_out_of_range_counterexample :
  let r4 := CaptureFile.GetSettings (CaptureFile.SavedSettings Bench.stray4) in
  let g' := CaptureFile.loadSettings 1 Bench.stray4 in
  let r := GetSettings (SavedSettings Bench.stray) in
  let s' := loadSettings 1 Bench.stray in
  (CaptureFile.version r4 = CaptureFile.SETTINGS_VERSION /\
   CaptureFile.mono_stereo_mode_ r4 = 7%Z /\
   option_map CaptureFile.mono_stereo_mode g' = Some 7%Z /\
   option_map CaptureFile.mono_stereo_mode g' <> Some MS_MODE_MIMO /\
   option_map CaptureFile.reverb_dry_scale_factor g' = Some 1 /\
   option_map CaptureFile.reverb_reverse_scale_factor g' = Some 1) /\
  (version r = SETTINGS_VERSION /\
   option_map mono_stereo_mode s' = Some MS_MODE_MIMO /\
   option_map (fun t => mono_stereo_mode_ (GetSettings (SavedSettings t))) s'
   = Some 7%Z /\
   option_map (fun t => mono_stereo_mode (restoreMonoStereoSettings t)) s'
   = Some 7%Z /\
   option_map (fun t => current_makeup_gain (restoreMonoStereoSettings t)) s'
   = Some 9%Z).
Proof.
  qeval.
Qed.

(** ** Entering a mode *)

Section ModeEntry.

Context {L : DspLib}.

Lemma KnobTakeover_capture_captured hw k :
  knob_captured hw (KnobTakeover_capture hw k).
Proof.
  unfold knob_captured, KnobTakeover_capture. intros kn.
  destruct (knob k) as [kn0 |] eqn:E; cbn.
  - intro H. injection H as <-. split; reflexivity.
  - rewrite E. discriminate.
Qed.


Lemma knob_captured_by hw k k0 :
  k = KnobTakeover_capture hw k0 -> knob_captured hw k.
Proof. intros ->. apply KnobTakeover_capture_captured. Qed.



Lemma enterTapTempoMode_ready hw (s : Pedal L) :
  tap_tempo_ready hw s (enterTapTempoMode hw s).
Proof.
  unfold tap_tempo_ready, enterTapTempoMode, enterTapTempoMode_steps.
  destruct (bypass_delay s), (bypass_trem s); cbn [negb andb orb app];
    (split; [reflexivity |]); (split; [reflexivity |]);
    (split; [reflexivity |]); (split; [reflexivity |]);
    split; eapply knob_captured_by; reflexivity.
Qed.



Lemma handleNormalPress_normal hw sw (s : Pedal L) :
  pedal_mode s = PEDAL_MODE_NORMAL ->
  let s' := handleNormalPress hw sw s in
  pedal_mode s' = PEDAL_MODE_NORMAL /\
  bypass_delay s' = match sw with
                    | FOOTSWITCH_1 => bypass_delay s
                    | FOOTSWITCH_2 => negb (bypass_delay s)
                    end /\
  bypass_trem s' = bypass_trem s /\
  osc s' = osc s.
Proof.
  intro Hm. unfold handleNormalPress. rewrite Hm.
  destruct sw; cbv zeta.
  - destruct (negb (bypass_verb s)); repeat split; assumption || reflexivity.
  - repeat split; assumption || reflexivity.
Qed.

Lemma enterTapTempoMode_keeps hw (s : Pedal L) :
  let s' := enterTapTempoMode hw s in
  pedal_mode s' = PEDAL_MODE_TAP_TEMPO /\
  bypass_trem s' = bypass_trem s /\
  osc s' = osc s.
Proof.
  unfold enterTapTempoMode, enterTapTempoMode_steps.
  destruct (bypass_delay s) eqn:Ed, (bypass_trem s) eqn:Et;
    cbn [negb andb app]; repeat split; first [reflexivity | exact Et].
Qed.






End ModeEntry.


(** ** Tap tempo with only the delay active *)

Section DelayOnlyTapTempo.

Context {L : DspLib}.

Lemma tap_view_eq (s s' : Pedal L) :
  tap_view s' = tap_view s ->
  pedal_mode s' = pedal_mode s /\
  tap_tempo_controls_tremolo s' = tap_tempo_controls_tremolo s /\
  bypass_trem s' = bypass_trem s /\
  bypass_delay s' = bypass_delay s /\
  osc s' = osc s.
Proof.
  unfold tap_view. intro H. injection H. intros. repeat split; assumption.
Qed.

Lemma control_state_tap_view (s s' : Pedal L) :
  control_state s' = control_state s -> osc s' = osc s ->
  tap_view s' = tap_view s.
Proof.
  unfold control_state, tap_view. intros H O. injection H. intros.
  congruence.
Qed.

Lemma handleTapTempoTap_view hw (s : Pedal L) :
  tap_view (handleTapTempoTap hw s) = tap_view s.
Proof.
  unfold handleTapTempoTap. cbv zeta. cases; reflexivity.
Qed.

Lemma reverb_type_view hw (s : Pedal L) :
  tap_view (AudioCallback_reverb_type hw s) = tap_view s /\
  tap_tempo_delay_samples (AudioCallback_reverb_type hw s)
  = tap_tempo_delay_samples s.
Proof.
  unfold AudioCallback_reverb_type. cases; split; reflexivity.
Qed.

Lemma tap_tempo_leds_view hw (s : Pedal L) :
  tap_view (AudioCallback_tap_tempo_leds hw s) = tap_view s /\
  tap_tempo_delay_samples (AudioCallback_tap_tempo_leds hw s)
  = tap_tempo_delay_samples s.
Proof.
  unfold AudioCallback_tap_tempo_leds. cbv zeta. cases; split; reflexivity.
Qed.

Lemma applyDelay_view hw m (s : Pedal L) :
  let s' := applyDelaySubdivisionAndSetTargets hw m s in
  tap_view s' = tap_view s /\
  delay_target (delayL s') = final_delay_time hw m /\
  delay_target (delayR s') = final_delay_time hw m.
Proof.
  unfold applyDelaySubdivisionAndSetTargets, final_delay_time. cbv zeta.
  repeat split; reflexivity.
Qed.

(** The block-rate part of a callback in tap tempo mode. *)
Lemma tap_tempo_block hw (s : Pedal L) :
  pedal_mode s = PEDAL_MODE_TAP_TEMPO ->
  tap_tempo_controls_tremolo s = false ->
  let s' := AudioCallback_parameters hw
              (AudioCallback_indicate hw (AudioCallback_reverb_type hw s)) in
  tap_view s' = tap_view s /\
  delay_target (delayL s') = final_delay_time hw (tap_tempo_delay_samples s) /\
  delay_target (delayR s') = final_delay_time hw (tap_tempo_delay_samples s).
Proof.
  intros Hm Hc.
  destruct (reverb_type_view hw s) as [V1 S1].
  set (s1 := AudioCallback_reverb_type hw s) in *.
  destruct (tap_view_eq V1) as (M1 & C1 & _).
  destruct (tap_tempo_leds_view hw s1) as [V2 S2].
  set (s2 := AudioCallback_tap_tempo_leds hw s1) in *.
  destruct (applyDelay_view hw (tap_tempo_delay_samples s2) s2) as (V3 & L3 & R3).
  cbv zeta in V3, L3, R3.
  set (s3 := applyDelaySubdivisionAndSetTargets hw (tap_tempo_delay_samples s2) s2) in *.
  destruct (tap_view_eq V2) as (M2 & C2 & _).
  destruct (tap_view_eq V3) as (M3 & C3 & _).
  assert (E : AudioCallback_indicate hw s1 = s3).
  { unfold AudioCallback_indicate. rewrite M1, Hm. cbv zeta.
    fold s2. fold s3. rewrite C3, C2, C1, Hc. reflexivity. }
  cbv zeta. rewrite E.
  unfold AudioCallback_parameters. cbv zeta.
  change (pedal_mode (set_plate_wet (p_verb_amt hw) s3)) with (pedal_mode s3).
  rewrite M3, M2, M1, Hm.
  change (tap_view (set_plate_wet (p_verb_amt hw) s3)) with (tap_view s3).
  change (delayL (set_plate_wet (p_verb_amt hw) s3)) with (delayL s3).
  change (delayR (set_plate_wet (p_verb_amt hw) s3)) with (delayR s3).
  repeat split; congruence.
Qed.

Lemma AudioCallback_sample_target hw dry (s : Pedal L) :
  let s' := snd (AudioCallback_sample hw dry s) in
  delay_target (delayL s') = delay_target (delayL s) /\
  delay_target (delayR s') = delay_target (delayR s).
Proof.
  destruct (AudioCallback_sample_frame hw dry s) as (_ & Hb & _ & _ & Ha).
  cbv zeta in *.
  destruct (bypass_delay s).
  - destruct (Hb eq_refl) as [-> ->]. split; reflexivity.
  - destruct (Ha eq_refl) as (x & -> & ->). split; reflexivity.
Qed.

Lemma AudioCallback_loop_target hw input (s : Pedal L) :
  let s' := snd (AudioCallback_loop hw input s) in
  delay_target (delayL s') = delay_target (delayL s) /\
  delay_target (delayR s') = delay_target (delayR s).
Proof.
  revert s. induction input as [| dry rest IH]; intro s.
  - split; reflexivity.
  - cbv zeta. rewrite AudioCallback_loop_cons.
    destruct (IH (snd (AudioCallback_sample hw dry s))) as [A B].
    destruct (AudioCallback_sample_target hw dry s) as [C D].
    cbv zeta in *. split; congruence.
Qed.

(** One callback of a session: the view is kept and both delay targets
    are set from the tapped delay time. *)
Lemma tap_callback hw (tap : bool) input (s : Pedal L) :
  pedal_mode s = PEDAL_MODE_TAP_TEMPO ->
  tap_tempo_controls_tremolo s = false ->
  bypass_trem s = true ->
  let events := if tap then [(NormalPress, FOOTSWITCH_2)] else [] in
  let tapped := if tap then handleTapTempoTap hw s else s in
  let s' := snd (AudioCallback hw events input s) in
  tap_view s' = tap_view s /\
  delay_target (delayL s') = final_delay_time hw (tap_tempo_delay_samples tapped) /\
  delay_target (delayR s') = final_delay_time hw (tap_tempo_delay_samples tapped).
Proof.
  intros Hm Hc Hb events tapped s'.
  assert (E : fold_left (fun s e => dispatch hw e s) events s = tapped).
  { unfold events, tapped. destruct tap; [| reflexivity].
    cbn [fold_left dispatch fst snd]. unfold handleNormalPress.
    rewrite Hm. reflexivity. }
  assert (Vt : tap_view tapped = tap_view s).
  { unfold tapped. destruct tap; [apply handleTapTempoTap_view | reflexivity]. }
  destruct (tap_view_eq Vt) as (Mt & Ct & Bt & _).
  destruct (@tap_tempo_block hw tapped) as (V & TL & TR); try congruence.
  cbv zeta in V, TL, TR.
  unfold s', AudioCallback. cbv zeta. rewrite E.
  set (s1 := AudioCallback_parameters hw
               (AudioCallback_indicate hw (AudioCallback_reverb_type hw tapped)))
    in *.
  destruct (tap_view_eq V) as (_ & _ & B1 & _).
  destruct (AudioCallback_loop_frame hw input s1) as (C & _ & O).
  destruct (AudioCallback_loop_target hw input s1) as [GL GR].
  cbv zeta in C, O, GL, GR.
  split; [| split; congruence].
  rewrite <- Vt, <- V. apply control_state_tap_view; [exact C |].
  apply O. congruence.
Qed.

Lemma tap_session_view calls (s : Pedal L) :
  pedal_mode s = PEDAL_MODE_TAP_TEMPO ->
  tap_tempo_controls_tremolo s = false ->
  bypass_trem s = true ->
  tap_view (tap_session calls s) = tap_view s.
Proof.
  revert s. induction calls as [| [[hw tap] input] rest IH]; intros s Hm Hc Hb.
  - reflexivity.
  - cbn [tap_session].
    destruct (@tap_callback hw tap input s Hm Hc Hb) as (V & _).
    cbv zeta in V.
    destruct (tap_view_eq V) as (M & C & B & _).
    rewrite IH; [exact V | congruence | congruence | congruence].
Qed.

(** C7.  A double press of footswitch 1 in normal mode with the delay on
    and the tremolo bypassed enters tap tempo mode with the controls-delay
    flag set and the controls-tremolo flag clear.  Through any run of
    callbacks that follows, taps included, the oscillator is the one the
    pedal had before the double press (its frequency is never set) and the
    flag stays clear, while a callback that carries a tap at an accepted
    interval [I] sets both delay targets from the tapped delay time,
    [clamp (I / 1000 * 48000, ...)] times the subdivision, clamped. *)
Theorem tap_tempo_delay_only hw (s : Pedal L) :
  pedal_mode s = PEDAL_MODE_NORMAL ->
  bypass_delay s = false ->
  bypass_trem s = true ->
  let s1 := handleDoublePress hw FOOTSWITCH_1 s in
  (pedal_mode s1 = PEDAL_MODE_TAP_TEMPO /\
   tap_tempo_controls_delay s1 = true /\
   tap_tempo_controls_tremolo s1 = false) /\
  (forall calls,
      let s2 := tap_session calls s1 in
      osc s2 = osc s /\
      tap_tempo_controls_tremolo s2 = false /\
      pedal_mode s2 = PEDAL_MODE_TAP_TEMPO) /\
  (forall calls hw' input,
      let s2 := tap_session calls s1 in
      let I := uint32 (GetNow hw' - tap_tempo_last_tap_time s2) in
      let s3 := snd (AudioCallback hw' [(NormalPress, FOOTSWITCH_2)] input s2) in
      (0 < tap_tempo_last_tap_time s2)%Z ->
      (20 <= I <= 4000)%Z ->
      delay_target (delayL s3) = final_delay_time hw' (spec_tap_delay_samples I) /\
      delay_target (delayR s3) = final_delay_time hw' (spec_tap_delay_samples I) /\
      osc s3 = osc s).
Proof.
  intros Hm Hd Ht s1.
  destruct (handleNormalPress_normal hw FOOTSWITCH_1 s Hm) as (M0 & D0 & T0 & O0).
  cbv zeta in M0, D0, T0, O0.
  set (s0 := handleNormalPress hw FOOTSWITCH_1 s) in *.
  assert (E1 : s1 = enterTapTempoMode hw s0).
  { unfold s1, handleDoublePress. rewrite Hm. reflexivity. }
  destruct (enterTapTempoMode_ready hw s0) as (_ & _ & Rd & Rt & _).
  rewrite <- E1 in Rd, Rt. rewrite D0, T0, Hd, Ht in Rd, Rt.
  cbn [negb orb] in Rd, Rt.
  destruct (enterTapTempoMode_keeps hw s0) as (M1 & B1 & O1).
  rewrite <- E1 in M1, B1, O1. rewrite T0, Ht in B1. rewrite O0 in O1.
  assert (Session : forall calls,
             tap_view (tap_session calls s1) = tap_view s1).
  { intro calls. apply tap_session_view; assumption. }
  split; [repeat split; assumption |]. split.
  - intros calls s2.
    destruct (tap_view_eq (Session calls)) as (M & C & _ & _ & O).
    fold s2 in M, C, O. repeat split; congruence.
  - intros calls hw' input s2 I s3 Hlast HI.
    destruct (tap_view_eq (Session calls)) as (M & C & B & _ & O).
    fold s2 in M, C, B, O.
    destruct (@tap_callback hw' true input s2) as (V & TL & TR);
      try congruence.
    cbv zeta in V, TL, TR. fold s3 in V, TL, TR.
    destruct (handleTapTempoTap_valid hw' s2 Hlast HI) as (S & _).
    fold I in S. rewrite S in TL, TR.
    destruct (tap_view_eq V) as (_ & _ & _ & _ & O3).
    repeat split; congruence.
Qed.

End DelayOnlyTapTempo.

Lemma tap_tempo_delay_only_witness :
  let hw := Bench.readings (1 # 2) TOGGLESWITCH_MIDDLE 1000 in
  let s := set_bypass_delay false Bench.ready in
  let s1 := handleDoublePress hw FOOTSWITCH_1 s in
  pedal_mode s1 = PEDAL_MODE_TAP_TEMPO /\
  tap_tempo_controls_delay s1 = true /\
  tap_tempo_controls_tremolo s1 = false.
Proof.
  intros hw s.
  apply (tap_tempo_delay_only hw s); reflexivity.
Defined.
